(** * scripts/scrape_with_scrapling.py: fetch a page and report it as JSON

    A shallow embedding of the command-line wrapper and the properties of
    its output and exit code.

    The script talks to collaborators that live outside the repository:
    the [scrapling] import and the fetched document, [argparse], and the
    standard output stream.  What they answer during one invocation is
    the input of the model (a [World]); everything the script itself does
    with these answers is translated line by line.

    Conventions.
    - A Python [str] is the list of its code points.
    - An exception is represented by what [str(e)] returns; only
      instances of [Exception] are modelled, which are the ones that the
      [except Exception] clauses of the script catch.
    - The [print] of line 44 sits inside the outer [try] and writes a
      text made with [ensure_ascii=False]: the stream may refuse it (a
      [UnicodeEncodeError] for a lone surrogate, or for a character that
      the encoding of the stream lacks) before anything is written, and
      line 46 catches that.  The lines of the two [except] clauses are
      made with the default [ensure_ascii], hence of ASCII characters
      only, and a stream is taken to accept those.
    - [json.dumps] is applied only to dictionaries of booleans, integers,
      strings, [None] and lists of these, on which it cannot fail.
    - Standard error receives what the argument parser writes there and
      what the library logs there while it is used; the script itself
      never writes to it. *)

From Stdlib Require Import String Ascii List NArith ZArith Bool Lia DecimalString.
From Stdlib Require DecimalPos.
Import ListNotations.
Local Open Scope string_scope.
Local Open Scope list_scope.

(** ** Python strings *)

Definition pystr := list N.

(** An ASCII literal of the source as a Python string. *)
Definition lit (s : string) : pystr :=
  map (fun c => N_of_ascii c) (list_ascii_of_string s).

(** [str.isspace] on one code point (CPython's [_PyUnicode_IsWhitespace]). *)
Definition is_space (c : N) : bool :=
  ((9 <=? c) && (c <=? 13) || (28 <=? c) && (c <=? 32)
   || (c =? 133) || (c =? 160) || (c =? 5760)
   || (8192 <=? c) && (c <=? 8202)
   || (c =? 8232) || (c =? 8233) || (c =? 8239) || (c =? 8287)
   || (c =? 12288))%N.

Fixpoint lstrip (s : pystr) : pystr :=
  match s with
  | [] => []
  | c :: s' => if is_space c then lstrip s' else s
  end.

Definition rstrip (s : pystr) : pystr := rev (lstrip (rev s)).

(** [s.strip()] *)
Definition strip (s : pystr) : pystr := rstrip (lstrip s).

(** [s[:n]] for [n >= 0], on strings and on lists. *)
Definition slice_to {A} (n : nat) (s : list A) : list A := firstn n s.

(** [len(s)] *)
Definition len {A} (s : list A) : Z := Z.of_nat (length s).

Definition starts_with_space (s : pystr) : bool :=
  match s with [] => false | c :: _ => is_space c end.

Definition ends_with_space (s : pystr) : bool := starts_with_space (rev s).

Definition pystr_eqb (a b : pystr) : bool :=
  if list_eq_dec N.eq_dec a b then true else false.

(** ** Exceptions *)

Inductive exn := Exception (message : pystr).

(** [str(e)] *)
Definition str (e : exn) : pystr := let (m) := e in m.

Inductive result (A : Type) :=
| Ok (a : A)
| Raise (e : exn).

Arguments Ok {A} a.
Arguments Raise {A} e.

Definition bind {A B} (r : result A) (k : A -> result B) : result B :=
  match r with
  | Ok a => k a
  | Raise e => Raise e
  end.

Notation "x <- r ;; k" := (bind r (fun x => k))
  (at level 61, r at next level, right associativity).

(** A list comprehension whose element expression may raise: elements are
    evaluated from left to right and the first exception ends it. *)
Fixpoint comprehension {A B} (f : A -> result B) (l : list A) : result (list B) :=
  match l with
  | [] => Ok []
  | a :: l' => b <- f a ;; bs <- comprehension f l' ;; Ok (b :: bs)
  end.

(** ** Python values that reach [json.dumps], and [dict] *)

#[warnings="-register-all"]
Inductive pyvalue :=
| PyNone
| PyBool (b : bool)
| PyInt (n : Z)
| PyStr (s : pystr)
| PyList (l : list pyvalue).

(** A [dict] with literal keys, in insertion order. *)
Definition dict := list (string * pyvalue).

(** [d[k] = v]: an existing key keeps its place, a new key goes last. *)
Fixpoint dict_set (k : string) (v : pyvalue) (d : dict) : dict :=
  match d with
  | [] => [(k, v)]
  | (k', v') :: d' =>
      if String.eqb k k' then (k, v) :: d' else (k', v') :: dict_set k v d'
  end.

Fixpoint dict_get (k : string) (d : dict) : option pyvalue :=
  match d with
  | [] => None
  | (k', v) :: d' => if String.eqb k k' then Some v else dict_get k d'
  end.

(** [k in d] *)
Definition has_key (k : string) (d : dict) : bool :=
  match dict_get k d with Some _ => true | None => false end.

(** ** The collaborators *)

(** A node returned by a selector query; [node_text] is what evaluating
    [n.text] gives. *)
Record Node := { node_text : result pystr }.

(** The document handle: [page.css(selector)] and the attribute
    [page.text] (which may be [None]; reading it may raise, as reading
    any property may).  A [Raise] of [css] also stands for a returned
    object that has no length. *)
Record Page := {
  css : pystr -> result (list Node);
  page_text : result (option pystr)
}.

(** [Fetcher(timeout=t).get(url)], the construction included. *)
Definition Fetcher := Z -> pystr -> result Page.

(** The [args] namespace built by lines 14-18. *)
Record Namespace := {
  url : pystr;
  selector : option pystr;
  timeout : Z
}.

(** What [parser.parse_args()] does with the command line: it returns the
    namespace, or prints the help message on standard output and exits
    with status 0 ([-h]), or prints usage and an error message on
    standard error and exits with status 2. *)
Inductive parse_outcome :=
| Parsed (args : Namespace)
| ParseHelp
| ParseError (message : pystr).

(** What is written to standard output by one call. *)
Inductive printed :=
| JsonLine (ensure_ascii : bool) (obj : dict)   (* print(json.dumps(obj, ...)) *)
| HelpMessage.                                  (* argparse's help text *)

(** One invocation, as the collaborators answer it.  [print] is what the
    standard output stream does with the line of line 44: it writes it,
    or raises and writes nothing.  (A world may refuse any line, which is
    more than a real stream does with a line of ASCII characters.)
    [library_log] is what [scrapling] logs on standard error while it
    fetches and answers queries. *)
Record World := {
  import_Fetcher : result Fetcher;   (* from scrapling.fetchers import Fetcher *)
  parse_args : parse_outcome;
  print : printed -> result unit;
  library_log : list pystr
}.

(** ** What the process leaves behind *)

Record Outcome := {
  stdout : list printed;
  stderr : list pystr;
  exit_code : Z
}.

(** ** The script *)

(** Truth value of a string and of an integer in a condition. *)
Definition truthy (s : pystr) : bool := negb (len s =? 0)%Z.
Definition truthy_int (n : Z) : bool := negb (n =? 0)%Z.

(** [l[i]] for [i >= 0] *)
Definition item {A} (l : list A) (i : nat) : result A :=
  match nth_error l i with
  | Some a => Ok a
  | None => Raise (Exception (lit "list index out of range"))
  end.

(** [t or ''], the text or the empty string *)
Definition or_empty (t : option pystr) : pystr :=
  match t with
  | Some s => if truthy s then s else []
  | None => []
  end.

(** Lines 24-25, the body of the inner [try]. *)
Definition title_lookup (page : Page) : result pyvalue :=
  title_nodes <- css page (lit "title") ;;
  if truthy_int (len title_nodes)
  then n <- item title_nodes 0 ;; t <- node_text n ;; Ok (PyStr t)
  else Ok PyNone.

(** Lines 22-27: any exception of the lookup leaves [title = None]. *)
Definition extract_title (page : Page) : pyvalue :=
  match title_lookup page with
  | Ok title => title
  | Raise _ => PyNone
  end.

(** [n.text.strip()], the element expression of line 39. *)
Definition trimmed_text (n : Node) : result pyvalue :=
  t <- node_text n ;; Ok (PyStr (strip t)).

(** Lines 36-39. *)
Definition selector_fields (page : Page) (sel : pystr) (payload : dict) : result dict :=
  nodes <- css page sel ;;
  let payload := dict_set "selector" (PyStr sel) payload in
  let payload := dict_set "count" (PyInt (len nodes)) payload in
  items <- comprehension trimmed_text (slice_to 20 nodes) ;;
  Ok (dict_set "items" (PyList items) payload).

(** Lines 41-42. *)
Definition preview_field (page : Page) (payload : dict) : result dict :=
  t <- page_text page ;;
  let text := or_empty t in
  Ok (dict_set "text_preview" (PyStr (slice_to 1000 (strip text))) payload).

(** Lines 35-42: the [if args.selector] statement. *)
Definition extend (args : Namespace) (page : Page) (payload : dict) : result dict :=
  match selector args with
  | Some sel =>
      if truthy sel then selector_fields page sel payload
      else preview_field page payload
  | None => preview_field page payload
  end.

(** Lines 29-33. *)
Definition initial_payload (args : Namespace) (title : pyvalue) : dict :=
  [("ok", PyBool true); ("url", PyStr (url args)); ("title", title)].

(** Lines 22-42 on a fetched page. *)
Definition extract (args : Namespace) (page : Page) : result dict :=
  let title := extract_title page in
  let payload := initial_payload args title in
  extend args page payload.

(** Lines 21-42, the body of the outer [try] up to the payload. *)
Definition fetch_and_extract (F : Fetcher) (args : Namespace) : result dict :=
  page <- F (timeout args) (url args) ;;
  extract args page.

(** The payload of the [except] clause, line 47. *)
Definition error_payload (e : exn) (args : Namespace) : dict :=
  [("ok", PyBool false); ("error", PyStr (str e)); ("url", PyStr (url args))].

(** The payload of the import guard, line 9. *)
Definition import_failed_payload (e : exn) : dict :=
  [("ok", PyBool false);
   ("error", PyStr (lit "scrapling_import_failed: " ++ str e))].

(** Lines 21-44, the whole body of the outer [try]: the payload is
    built, then line 44 prints it; the [print] may raise. *)
Definition try_body (w : World) (F : Fetcher) (args : Namespace) : result dict :=
  payload <- fetch_and_extract F args ;;
  written <- print w (JsonLine false payload) ;;
  Ok payload.

(** [main], lines 13-48, with [Fetcher] bound to [F]; an exit of the
    argument parser leaves [main] as [SystemExit] with the parser's
    status.  A [print] that raised has written nothing, so the line of
    the [except] clause is then the only one. *)
Definition main (F : Fetcher) (w : World) : Outcome :=
  match parse_args w with
  | ParseHelp => {| stdout := [HelpMessage]; stderr := []; exit_code := 0 |}
  | ParseError m => {| stdout := []; stderr := [m]; exit_code := 2 |}
  | Parsed args =>
      match try_body w F args with
      | Ok payload =>
          {| stdout := [JsonLine false payload]; stderr := library_log w;
             exit_code := 0 |}
      | Raise e =>
          {| stdout := [JsonLine true (error_payload e args)];
             stderr := library_log w; exit_code := 1 |}
      end
  end.

(** The whole script: the import guard of lines 6-10, then
    [raise SystemExit(main())]. *)
Definition script (w : World) : Outcome :=
  match import_Fetcher w with
  | Raise e =>
      {| stdout := [JsonLine true (import_failed_payload e)];
         stderr := []; exit_code := 2 |}
  | Ok F => main F w
  end.

(** ** [json.dumps] *)

(** One lower-case hexadecimal digit. *)
Definition hex_digit (d : N) : N := (if d <? 10 then 48 + d else 87 + d)%N.

(** ['\\u{0:04x}'.format(n)] for [n < 0x10000] *)
Definition u_escape (n : N) : pystr :=
  [92; 117; hex_digit (N.shiftr n 12 mod 16); hex_digit (N.shiftr n 8 mod 16);
   hex_digit (N.shiftr n 4 mod 16); hex_digit (n mod 16)]%N.

(** The replacement of one character inside a JSON string
    ([py_encode_basestring_ascii] when [ensure_ascii], else
    [py_encode_basestring]). *)
Definition escape_char (ensure_ascii : bool) (c : N) : pystr :=
  (if c =? 34 then [92; 34]
   else if c =? 92 then [92; 92]
   else if c =? 10 then [92; 110]
   else if c =? 13 then [92; 114]
   else if c =? 9 then [92; 116]
   else if c =? 8 then [92; 98]
   else if c =? 12 then [92; 102]
   else if ensure_ascii then
     if (32 <=? c) && (c <=? 126) then [c]
     else if c <? 65536 then u_escape c
     else
       let v := c - 65536 in
       u_escape (N.lor 55296 (N.land (N.shiftr v 10) 1023))
       ++ u_escape (N.lor 56320 (N.land v 1023))
   else if c <? 32 then u_escape c else [c])%N.

Definition dumps_str (ensure_ascii : bool) (s : pystr) : pystr :=
  [34%N] ++ flat_map (escape_char ensure_ascii) s ++ [34%N].

(** [sep.join(l)] *)
Fixpoint join (sep : pystr) (l : list pystr) : pystr :=
  match l with
  | [] => []
  | [x] => x
  | x :: l' => x ++ sep ++ join sep l'
  end.

(** [repr] of an integer. *)
Definition dumps_int (n : Z) : pystr :=
  lit (DecimalString.NilZero.string_of_int (Z.to_int n)).

Fixpoint dumps_value (ensure_ascii : bool) (v : pyvalue) : pystr :=
  match v with
  | PyNone => lit "null"
  | PyBool true => lit "true"
  | PyBool false => lit "false"
  | PyInt n => dumps_int n
  | PyStr s => dumps_str ensure_ascii s
  | PyList l =>
      lit "[" ++ join (lit ", ") (map (dumps_value ensure_ascii) l) ++ lit "]"
  end.

Definition dumps_member (ensure_ascii : bool) (kv : string * pyvalue) : pystr :=
  dumps_str ensure_ascii (lit (fst kv)) ++ lit ": "
  ++ dumps_value ensure_ascii (snd kv).

(** [json.dumps(obj, ensure_ascii=...)] with the default separators. *)
Definition dumps (ensure_ascii : bool) (obj : dict) : pystr :=
  lit "{" ++ join (lit ", ") (map (dumps_member ensure_ascii) obj) ++ lit "}".

(** The characters that a [print] sends to standard output, without the
    final newline; the help text of [argparse] is not modelled. *)
Definition printed_text (p : printed) : option pystr :=
  match p with
  | JsonLine ensure_ascii obj => Some (dumps ensure_ascii obj)
  | HelpMessage => None
  end.

(** ** The JSON grammar (RFC 8259, numbers without fraction and exponent) *)

Definition is_hex (c : N) : bool :=
  ((48 <=? c) && (c <=? 57) || (97 <=? c) && (c <=? 102)
   || (65 <=? c) && (c <=? 70))%N.

Definition is_digit (c : N) : bool := ((48 <=? c) && (c <=? 57))%N.

(** The characters between the quotes of a string. *)
Inductive json_chars : pystr -> Prop :=
| jc_nil : json_chars []
| jc_plain c s :
    (32 <= c)%N -> c <> 34%N -> c <> 92%N -> (c <= 1114111)%N ->
    json_chars s -> json_chars (c :: s)
| jc_escape c s :
    In c [34; 92; 47; 98; 102; 110; 114; 116]%N ->
    json_chars s -> json_chars (92%N :: c :: s)
| jc_unicode a b c d s :
    is_hex a = true -> is_hex b = true -> is_hex c = true -> is_hex d = true ->
    json_chars s -> json_chars (92%N :: 117%N :: a :: b :: c :: d :: s).

Inductive json_ws : pystr -> Prop :=
| ws_nil : json_ws []
| ws_cons c s : In c [32; 9; 10; 13]%N -> json_ws s -> json_ws (c :: s).

Inductive json_int : pystr -> Prop :=
| ji_zero : json_int [48%N]
| ji_pos d ds :
    is_digit d = true -> d <> 48%N -> forallb is_digit ds = true ->
    json_int (d :: ds)
| ji_neg s : json_int s -> hd 0%N s <> 45%N -> json_int (45%N :: s).

Inductive json_value : pystr -> Prop :=
| jv_null : json_value (lit "null")
| jv_true : json_value (lit "true")
| jv_false : json_value (lit "false")
| jv_int s : json_int s -> json_value s
| jv_string s : json_chars s -> json_value ([34%N] ++ s ++ [34%N])
| jv_array_empty w : json_ws w -> json_value ([91%N] ++ w ++ [93%N])
| jv_array es : json_elements es -> json_value ([91%N] ++ es ++ [93%N])
| jv_object o : json_object o -> json_value o
with json_elements : pystr -> Prop :=
| je_last w1 v w2 :
    json_ws w1 -> json_value v -> json_ws w2 -> json_elements (w1 ++ v ++ w2)
| je_more w1 v w2 es :
    json_ws w1 -> json_value v -> json_ws w2 -> json_elements es ->
    json_elements (w1 ++ v ++ w2 ++ [44%N] ++ es)
with json_members : pystr -> Prop :=
| jm_last w1 k w2 w3 v w4 :
    json_ws w1 -> json_chars k -> json_ws w2 -> json_ws w3 ->
    json_value v -> json_ws w4 ->
    json_members (w1 ++ ([34%N] ++ k ++ [34%N]) ++ w2 ++ [58%N] ++ w3 ++ v ++ w4)
| jm_more w1 k w2 w3 v w4 ms :
    json_ws w1 -> json_chars k -> json_ws w2 -> json_ws w3 ->
    json_value v -> json_ws w4 -> json_members ms ->
    json_members (w1 ++ ([34%N] ++ k ++ [34%N]) ++ w2 ++ [58%N] ++ w3 ++ v ++ w4
                  ++ [44%N] ++ ms)
with json_object : pystr -> Prop :=
| jo_empty w : json_ws w -> json_object ([123%N] ++ w ++ [125%N])
| jo_members ms : json_members ms -> json_object ([123%N] ++ ms ++ [125%N]).

(** ** Observations on an outcome *)

(** Standard output holds exactly one line, the serialisation of [obj]. *)
Definition prints_object (o : Outcome) (obj : dict) : Prop :=
  exists ensure_ascii, stdout o = [JsonLine ensure_ascii obj].

(** Standard output holds exactly one line and it is the text of a JSON
    object. *)
Definition prints_valid_json (o : Outcome) : Prop :=
  exists ensure_ascii obj,
    stdout o = [JsonLine ensure_ascii obj] /\ json_object (dumps ensure_ascii obj).

(** How an invocation went, read off the answers of the collaborators. *)
Definition capability_unavailable (w : World) : Prop :=
  exists e, import_Fetcher w = Raise e.

Definition usage_error (w : World) : Prop :=
  exists F message, import_Fetcher w = Ok F /\ parse_args w = ParseError message.

Definition help_requested (w : World) : Prop :=
  exists F, import_Fetcher w = Ok F /\ parse_args w = ParseHelp.

(** The fetch and the extraction return a payload and its line is
    printed. *)
Definition succeeded (w : World) : Prop :=
  exists F args payload,
    import_Fetcher w = Ok F /\ parse_args w = Parsed args /\
    fetch_and_extract F args = Ok payload /\
    print w (JsonLine false payload) = Ok tt.

(** An exception leaves the fetch or the extraction, or the [print] of
    the payload they return. *)
Definition raised (w : World) : Prop :=
  exists F args e,
    import_Fetcher w = Ok F /\ parse_args w = Parsed args /\
    (fetch_and_extract F args = Raise e \/
     exists payload,
       fetch_and_extract F args = Ok payload /\
       print w (JsonLine false payload) = Raise e).

(** The [print] of line 44 raises nothing, if the run gets there. *)
Definition result_is_printed (w : World) (F : Fetcher) (args : Namespace) : Prop :=
  forall payload,
    fetch_and_extract F args = Ok payload ->
    print w (JsonLine false payload) = Ok tt.

(** Where an exception [e] can come from so that it leaves the outer
    [try] body: the fetch, the selector query, the text of one of the
    first 20 matches (those before it having been read), or the text
    accessor of the document.  The title lookup is not among them. *)
Inductive escapes (F : Fetcher) (args : Namespace) (e : exn) : Prop :=
| fetch_raises :
    F (timeout args) (url args) = Raise e -> escapes F args e
| query_raises page sel :
    F (timeout args) (url args) = Ok page ->
    selector args = Some sel -> sel <> [] ->
    css page sel = Raise e -> escapes F args e
| match_text_raises page sel nodes before n after :
    F (timeout args) (url args) = Ok page ->
    selector args = Some sel -> sel <> [] ->
    css page sel = Ok nodes ->
    slice_to 20 nodes = before ++ n :: after ->
    Forall (fun m => exists t, node_text m = Ok t) before ->
    node_text n = Raise e -> escapes F args e
| page_text_raises page :
    F (timeout args) (url args) = Ok page ->
    selector args = None \/ selector args = Some [] ->
    page_text page = Raise e -> escapes F args e.

(** [prefix] starts [s]. *)
Definition starts_with (prefix s : pystr) : Prop := exists rest, s = prefix ++ rest.

(** The same invocation with another command line. *)
Definition with_command_line (w : World) (cmd : parse_outcome) : World :=
  {| import_Fetcher := import_Fetcher w; parse_args := cmd;
     print := print w; library_log := library_log w |}.

(** ** Sample invocations *)

Definition text_node (s : string) : Node := {| node_text := Ok (lit s) |}.

Definition broken_node : Node :=
  {| node_text := Raise (Exception (lit "'str' object has no attribute 'text'")) |}.

(** A small document: a title, twenty-two paragraphs, some text. *)
Definition sample_page : Page :=
  {| css := fun sel =>
       if pystr_eqb sel (lit "title") then Ok [text_node "Example Domain"]
       else if pystr_eqb sel (lit "p")
       then Ok (text_node "  first " :: repeat (text_node "more") 21)
       else Ok [];
     page_text := Ok (Some (lit "  Example Domain  ")) |}.

(** A document whose trimmed text has 1001 characters, the 1000th a
    space. *)
Definition long_page : Page :=
  {| css := fun _ => Ok [];
     page_text := Ok (Some (repeat 97%N 999 ++ [32; 98]%N)) |}.

(** A document whose title node has no readable text and which rejects
    every other selector. *)
Definition untitled_page : Page :=
  {| css := fun sel =>
       if pystr_eqb sel (lit "title") then Ok [broken_node]
       else Raise (Exception (lit "invalid selector"));
     page_text := Ok (Some (lit "body")) |}.

(** A document whose text accessor raises. *)
Definition textless_page : Page :=
  {| css := fun _ => Ok [];
     page_text := Raise (Exception (lit "no text")) |}.

Definition serve (page : Page) : Fetcher := fun _ _ => Ok page.

Definition sample_args (sel : option pystr) : Namespace :=
  {| url := lit "https://example.com"; selector := sel; timeout := 20 |}.

(** A code point of the surrogate range, which UTF-8 cannot encode. *)
Definition is_surrogate (c : N) : bool := ((55296 <=? c) && (c <=? 57343))%N.

(** A standard output stream encoded in UTF-8 with strict error handling:
    a text with a surrogate raises [UnicodeEncodeError]. *)
Definition utf8_stdout (p : printed) : result unit :=
  match printed_text p with
  | Some text =>
      if existsb is_surrogate text
      then Raise (Exception (lit "'utf-8' codec can't encode character: surrogates not allowed"))
      else Ok tt
  | None => Ok tt
  end.

(** What the library logs for one request. *)
Definition sample_log : list pystr :=
  [lit "[INFO] Fetched (200) <GET https://example.com>"].

Definition sample_world (page : Page) (sel : option pystr) : World :=
  {| import_Fetcher := Ok (serve page); parse_args := Parsed (sample_args sel);
     print := utf8_stdout; library_log := sample_log |}.

(** The script started without any argument. *)
Definition no_arguments_world : World :=
  {| import_Fetcher := Ok (serve sample_page);
     parse_args := ParseError (lit "the following arguments are required: url");
     print := utf8_stdout; library_log := [] |}.

(** [scrapling] is not installed. *)
Definition import_failed_world : World :=
  {| import_Fetcher := Raise (Exception (lit "No module named 'scrapling'"));
     parse_args := Parsed (sample_args None);
     print := utf8_stdout; library_log := [] |}.

(** The fetch raises an exception that carries no message, such as
    [TimeoutError()]. *)
Definition silent_failure_world : World :=
  {| import_Fetcher := Ok (fun _ _ => Raise (Exception []));
     parse_args := Parsed (sample_args None);
     print := utf8_stdout; library_log := [] |}.

(** The fetch raises an exception with a message. *)
Definition refused_world : World :=
  {| import_Fetcher := Ok (fun _ _ => Raise (Exception (lit "connection refused")));
     parse_args := Parsed (sample_args None);
     print := utf8_stdout; library_log := [] |}.

(** A document whose text holds a lone surrogate, [U+D800]. *)
Definition surrogate_page : Page :=
  {| css := fun _ => Ok [];
     page_text := Ok (Some (lit "caf" ++ [55296%N])) |}.

(** A document on which every query, that of the empty selector too,
    returns one node. *)
Definition matching_page : Page :=
  {| css := fun _ => Ok [text_node " match "];
     page_text := Ok (Some (lit "text")) |}.

(** ** Further observations on texts and payloads *)

(** Every character of [s] is whitespace. *)
Definition all_space (s : pystr) : bool := forallb is_space s.

(** [s] is [t] trimmed: [t] without the whitespace at its two ends, all
    of it and nothing else. *)
Definition trimmed_of (t s : pystr) : Prop :=
  exists lead trail,
    t = lead ++ s ++ trail /\
    all_space lead = true /\ all_space trail = true /\
    starts_with_space s = false /\ ends_with_space s = false.

(** Every character of [s] is a printable ASCII character. *)
Definition printable_ascii (s : pystr) : bool :=
  forallb (fun c => (32 <=? c) && (c <=? 126))%N s.

(** The code points of [s] are in the range of Unicode, as those of every
    Python string are. *)
Definition unicode (s : pystr) : bool := forallb (fun c => c <=? 1114111)%N s.

Fixpoint unicode_value (v : pyvalue) : bool :=
  match v with
  | PyStr s => unicode s
  | PyList l => forallb unicode_value l
  | _ => true
  end.

Definition unicode_dict (d : dict) : bool :=
  forallb (fun kv => unicode_value (snd kv)) d.

(** [list(d)], the keys in insertion order. *)
Definition keys (d : dict) : list string := map fst d.

(** Reading [n.text] raises nothing. *)
Definition readable (n : Node) : Prop := exists t, node_text n = Ok t.

(** What the extraction needs from a fetched page in order not to raise:
    with a non-empty selector, the query returns and the first 20 matches
    are readable; otherwise the text accessor returns. *)
Definition extractable (args : Namespace) (page : Page) : Prop :=
  (exists sel nodes,
      selector args = Some sel /\ sel <> [] /\ css page sel = Ok nodes /\
      Forall readable (slice_to 20 nodes))
  \/
  ((selector args = None \/ selector args = Some []) /\
   exists raw, page_text page = Ok raw).

(** A document in which [h1] matches nothing, some link has no readable
    text after the twentieth, and the text is blank. *)
Definition sparse_page : Page :=
  {| css := fun sel =>
       if pystr_eqb sel (lit "a")
       then Ok (repeat (text_node " link ") 20 ++ [broken_node])
       else Ok [];
     page_text := Ok (Some (lit "   ")) |}.

(** Induction on Python values, through the lists they hold. *)
Fixpoint pyvalue_induction (P : pyvalue -> Prop)
         (on_none : P PyNone) (on_bool : forall b, P (PyBool b))
         (on_int : forall n, P (PyInt n)) (on_str : forall s, P (PyStr s))
         (on_list : forall l, Forall P l -> P (PyList l))
         (v : pyvalue) : P v :=
  match v with
  | PyNone => on_none
  | PyBool b => on_bool b
  | PyInt n => on_int n
  | PyStr s => on_str s
  | PyList l =>
      on_list l
        ((fix all (l : list pyvalue) : Forall P l :=
            match l with
            | [] => Forall_nil P
            | x :: l' =>
                Forall_cons x
                  (pyvalue_induction P on_none on_bool on_int on_str on_list x)
                  (all l')
            end) l)
  end.

(** [page] with a text accessor that raises. *)
Definition without_text (page : Page) : Page :=
  {| css := css page;
     page_text := Raise (Exception (lit "no text")) |}.

(** [page] with every query but that of the title rejected. *)
Definition title_only (page : Page) : Page :=
  {| css := fun sel =>
       if pystr_eqb sel (lit "title") then css page sel
       else Raise (Exception (lit "invalid selector"));
     page_text := page_text page |}.

(** ** Proof steps *)

Ltac break_cases :=
  repeat match goal with
         | X : _ \/ _ |- _ => destruct X
         | X : exists _, _ |- _ => destruct X
         | X : _ /\ _ |- _ => destruct X
         end.

Ltac settle :=
  simpl; repeat split; intros; try discriminate; auto; break_cases; congruence.

(** * Properties *)

(** ** Runs of the sample invocations *)

Example sample_preview_run :
  script (sample_world sample_page None) =
  {| stdout := [JsonLine false
       [("ok", PyBool true); ("url", PyStr (lit "https://example.com"));
        ("title", PyStr (lit "Example Domain"));
        ("text_preview", PyStr (lit "Example Domain"))]];
     stderr := sample_log; exit_code := 0 |}.
Proof. reflexivity. Qed.

(** A text that the stream cannot encode: the [print] of line 44 raises,
    line 46 catches the exception, and the run ends as a failure. *)
Example unprintable_result_run :
  fetch_and_extract (serve surrogate_page) (sample_args None)
  = Ok [("ok", PyBool true); ("url", PyStr (lit "https://example.com"));
        ("title", PyNone);
        ("text_preview", PyStr (lit "caf" ++ [55296%N]))] /\
  script (sample_world surrogate_page None) =
  {| stdout := [JsonLine true
       [("ok", PyBool false);
        ("error", PyStr (lit "'utf-8' codec can't encode character: surrogates not allowed"));
        ("url", PyStr (lit "https://example.com"))]];
     stderr := sample_log; exit_code := 1 |}.
Proof. split; reflexivity. Qed.

(** ** Trimming and slicing *)

Lemma lstrip_no_leading_space s : starts_with_space (lstrip s) = false.
Proof.
  induction s as [|c s IH]; simpl; [reflexivity|].
  destruct (is_space c) eqn:E; [exact IH | simpl; exact E].
Qed.

Lemma lstrip_snoc s c :
  lstrip (s ++ [c]) =
  match lstrip s with
  | [] => lstrip [c]
  | _ :: _ => lstrip s ++ [c]
  end.
Proof.
  induction s as [|a s IH]; simpl; [reflexivity|].
  destruct (is_space a); [exact IH | reflexivity].
Qed.

Lemma rstrip_cons c s :
  rstrip (c :: s) =
  match rstrip s with
  | [] => if is_space c then [] else [c]
  | _ :: _ => c :: rstrip s
  end.
Proof.
  unfold rstrip. simpl rev. rewrite lstrip_snoc.
  destruct (lstrip (rev s)) as [|a l] eqn:E.
  - simpl. destruct (is_space c); reflexivity.
  - rewrite rev_app_distr. change (rev [c]) with [c].
    remember (rev (a :: l)) as r eqn:R. destruct r; [|reflexivity].
    apply (f_equal (@length N)) in R. rewrite length_rev in R. discriminate.
Qed.

Lemma rstrip_no_trailing_space s : ends_with_space (rstrip s) = false.
Proof.
  unfold ends_with_space, rstrip. rewrite rev_involutive.
  apply lstrip_no_leading_space.
Qed.

Lemma rstrip_keeps_head s :
  starts_with_space s = false -> starts_with_space (rstrip s) = false.
Proof.
  destruct s as [|c s]; [reflexivity|]. simpl. intros E.
  rewrite rstrip_cons. destruct (rstrip s); [rewrite E|]; simpl; auto.
Qed.

Lemma strip_no_leading_space s : starts_with_space (strip s) = false.
Proof. apply rstrip_keeps_head, lstrip_no_leading_space. Qed.

Lemma strip_no_trailing_space s : ends_with_space (strip s) = false.
Proof. apply rstrip_no_trailing_space. Qed.

Lemma slice_keeps_head n s :
  starts_with_space s = false -> starts_with_space (slice_to n s) = false.
Proof. destruct n, s; simpl; auto. Qed.

Lemma slice_length {A} n (s : list A) : (length (slice_to n s) <= n)%nat.
Proof. apply firstn_le_length. Qed.

Lemma slice_length_min {A} n (s : list A) :
  length (slice_to n s) = Nat.min n (length s).
Proof. apply length_firstn. Qed.

Lemma slice_all {A} n (s : list A) : (length s <= n)%nat -> slice_to n s = s.
Proof. apply firstn_all2. Qed.

(** ** What [strip] removes *)

Lemma lstrip_split s :
  exists lead, s = lead ++ lstrip s /\ all_space lead = true.
Proof.
  induction s as [|c s (lead & E & A)]; simpl.
  - exists []. auto.
  - destruct (is_space c) eqn:C.
    + exists (c :: lead). simpl. rewrite C, A. split; [congruence | reflexivity].
    + exists []. auto.
Qed.

Lemma all_space_rev s : all_space (rev s) = all_space s.
Proof.
  unfold all_space. induction s as [|c s IH]; simpl; [reflexivity|].
  rewrite forallb_app, IH. simpl. rewrite andb_true_r. apply andb_comm.
Qed.

Lemma rstrip_split s :
  exists trail, s = rstrip s ++ trail /\ all_space trail = true.
Proof.
  unfold rstrip. destruct (lstrip_split (rev s)) as (lead & E & A).
  exists (rev lead). split.
  - rewrite <- rev_app_distr, <- E. symmetry. apply rev_involutive.
  - rewrite all_space_rev. exact A.
Qed.

(** [s.strip()] is [s] without a whitespace prefix and a whitespace
    suffix. *)
Lemma strip_split s :
  exists lead trail,
    s = lead ++ strip s ++ trail /\
    all_space lead = true /\ all_space trail = true.
Proof.
  destruct (lstrip_split s) as (lead & E & A).
  destruct (rstrip_split (lstrip s)) as (trail & E' & A').
  exists lead, trail. unfold strip. rewrite <- E'. auto.
Qed.

Lemma lstrip_all_space s : all_space s = true -> lstrip s = [].
Proof.
  unfold all_space. induction s as [|c s IH]; simpl; [reflexivity|].
  intros H. apply andb_true_iff in H as [C H]. rewrite C. auto.
Qed.

Lemma strip_empty_iff s : strip s = [] <-> all_space s = true.
Proof.
  split.
  - intros H. destruct (strip_split s) as (lead & trail & E & A & A').
    rewrite H in E. rewrite E. unfold all_space in *. simpl.
    rewrite forallb_app, A, A'. reflexivity.
  - intros H. unfold strip. rewrite (lstrip_all_space _ H). reflexivity.
Qed.

(** ** List comprehensions and dictionaries *)

Lemma comprehension_ok {A B} (f : A -> result B) l bs :
  comprehension f l = Ok bs -> Forall2 (fun a b => f a = Ok b) l bs.
Proof.
  revert bs. induction l as [|a l IH]; simpl; intros bs H.
  - injection H as <-. constructor.
  - destruct (f a) as [b|e] eqn:Fa; simpl in H; [|discriminate].
    destruct (comprehension f l) as [bs'|e]; simpl in H; [|discriminate].
    injection H as <-. constructor; auto.
Qed.

Lemma Forall2_same_length {A B} (R : A -> B -> Prop) l l' :
  Forall2 R l l' -> length l = length l'.
Proof. induction 1; simpl; congruence. Qed.

Lemma bind_ok {A B} (r : result A) (k : A -> result B) b :
  (x <- r ;; k x) = Ok b -> exists a, r = Ok a /\ k a = Ok b.
Proof. destruct r as [a|e]; simpl; [eauto | discriminate]. Qed.

Lemma dict_get_set_same k v d : dict_get k (dict_set k v d) = Some v.
Proof.
  induction d as [|[k' v'] d IH]; simpl.
  - rewrite String.eqb_refl. reflexivity.
  - destruct (String.eqb k k') eqn:E; simpl; rewrite ?String.eqb_refl, ?E; auto.
Qed.

Lemma dict_get_set_other k k' v d :
  k <> k' -> dict_get k (dict_set k' v d) = dict_get k d.
Proof.
  intros N. induction d as [|[k0 v0] d IH]; simpl.
  - destruct (String.eqb_spec k k'); [contradiction | reflexivity].
  - destruct (String.eqb_spec k' k0) as [->|N0]; simpl.
    + destruct (String.eqb_spec k k0); [contradiction | reflexivity].
    + destruct (String.eqb_spec k k0); auto.
Qed.

(** ** The text of [json.dumps] is JSON *)

Lemma hex_digit_is_hex d : (d < 16)%N -> is_hex (hex_digit d) = true.
Proof.
  intros H. unfold is_hex, hex_digit.
  destruct (N.ltb_spec d 10);
    rewrite !orb_true_iff, !andb_true_iff, !N.leb_le; lia.
Qed.

Lemma u_escape_chars n s : json_chars s -> json_chars (u_escape n ++ s).
Proof.
  intros H. unfold u_escape. simpl.
  apply jc_unicode; auto; apply hex_digit_is_hex;
    apply N.mod_upper_bound; discriminate.
Qed.

(** With [ensure_ascii] every character is replaced by characters that
    a JSON string may hold. *)
Lemma escape_char_ascii c s :
  json_chars s -> json_chars (escape_char true c ++ s).
Proof.
  intros H. unfold escape_char.
  repeat match goal with
         | |- context [(c =? ?k)%N] =>
             destruct (N.eqb_spec c k);
             [simpl; apply jc_escape; [simpl; tauto | exact H] |]
         end.
  cbv zeta.
  destruct (N.leb_spec 32 c); cbn [andb].
  - destruct (N.leb_spec c 126).
    + apply jc_plain; auto; lia.
    + destruct (c <? 65536)%N.
      * apply u_escape_chars, H.
      * rewrite <- app_assoc. apply u_escape_chars, u_escape_chars, H.
  - destruct (c <? 65536)%N.
    + apply u_escape_chars, H.
    + rewrite <- app_assoc. apply u_escape_chars, u_escape_chars, H.
Qed.

Lemma escape_ascii s : json_chars (flat_map (escape_char true) s).
Proof.
  induction s as [|c s IH]; simpl; [constructor | apply escape_char_ascii, IH].
Qed.

Lemma dumps_str_value s : json_value (dumps_str true s).
Proof. apply jv_string, escape_ascii. Qed.

Lemma ws_space : json_ws [32%N].
Proof. repeat constructor. Qed.

(** A non-empty dictionary of JSON values is written as the members of
    an object. *)
Lemma dumps_member_shape kv rest :
  dumps_member true kv ++ rest =
  ([34%N] ++ flat_map (escape_char true) (lit (fst kv)) ++ [34%N])
    ++ [] ++ [58%N] ++ [32%N] ++ dumps_value true (snd kv) ++ [] ++ rest.
Proof.
  unfold dumps_member, dumps_str.
  change (lit ": ") with [58; 32]%N.
  rewrite <- !app_assoc. reflexivity.
Qed.

(** A non-empty dictionary of JSON values is written as the members of
    an object. *)
Lemma dumps_members w kv d :
  json_ws w ->
  Forall (fun kv => json_value (dumps_value true (snd kv))) (kv :: d) ->
  json_members (w ++ join (lit ", ") (map (dumps_member true) (kv :: d))).
Proof.
  revert w kv. induction d as [|kv' d IH]; intros w kv Hw Hv.
  - inversion Hv as [|? ? Hkv _]; subst.
    change (json_members (w ++ dumps_member true kv)).
    rewrite <- (app_nil_r (dumps_member true kv)), dumps_member_shape.
    apply (@jm_last w (flat_map (escape_char true) (lit (fst kv))) []
             [32%N] (dumps_value true (snd kv)) ([] ++ []));
      auto using escape_ascii, ws_space, ws_nil.
  - inversion Hv as [|? ? Hkv Hrest]; subst.
    change (json_members
              (w ++ dumps_member true kv
                 ++ [44%N] ++ [32%N]
                 ++ join (lit ", ") (map (dumps_member true) (kv' :: d)))).
    rewrite dumps_member_shape.
    apply (@jm_more w (flat_map (escape_char true) (lit (fst kv))) []
             [32%N] (dumps_value true (snd kv)) []
             ([32%N] ++ join (lit ", ") (map (dumps_member true) (kv' :: d))));
      auto using escape_ascii, ws_space, ws_nil.
Qed.

Lemma dumps_object d :
  Forall (fun kv => json_value (dumps_value true (snd kv))) d ->
  json_object (dumps true d).
Proof.
  intros H. unfold dumps. destruct d as [|kv d].
  - apply (jo_empty []). constructor.
  - apply jo_members. apply (dumps_members []); auto using ws_nil.
Qed.

Lemma error_payload_json e args : json_object (dumps true (error_payload e args)).
Proof.
  apply dumps_object.
  repeat apply Forall_cons; try apply Forall_nil;
    first [apply jv_false | apply dumps_str_value].
Qed.

Lemma import_failed_payload_json e :
  json_object (dumps true (import_failed_payload e)).
Proof.
  apply dumps_object.
  repeat apply Forall_cons; try apply Forall_nil;
    first [apply jv_false | apply dumps_str_value].
Qed.

(** ** The three ways through the script *)

Section Runs.

Variables (w : World) (F : Fetcher) (args : Namespace).
Hypothesis imported : import_Fetcher w = Ok F.
Hypothesis parsed : parse_args w = Parsed args.

(** The [try] body returns when the payload is built and printed. *)
Lemma try_body_ok payload :
  try_body w F args = Ok payload <->
  fetch_and_extract F args = Ok payload /\
  print w (JsonLine false payload) = Ok tt.
Proof.
  unfold try_body.
  destruct (fetch_and_extract F args) as [p|e]; simpl;
    [|split; [discriminate | intros [H _]; discriminate H]].
  destruct (print w (JsonLine false p)) as [[]|e] eqn:W; simpl; split.
  - intros H. injection H as <-. auto.
  - intros [H _]. exact H.
  - discriminate.
  - intros [H W']. injection H as <-. congruence.
Qed.

(** It raises what the fetch or the extraction raises, or else what the
    [print] raises. *)
Lemma try_body_raises e :
  try_body w F args = Raise e <->
  fetch_and_extract F args = Raise e \/
  exists payload,
    fetch_and_extract F args = Ok payload /\
    print w (JsonLine false payload) = Raise e.
Proof.
  unfold try_body.
  destruct (fetch_and_extract F args) as [p|e']; simpl.
  - destruct (print w (JsonLine false p)) as [[]|e''] eqn:W; simpl; split.
    + discriminate.
    + intros [H | (payload & H & W')]; [discriminate|].
      injection H as <-. congruence.
    + intros H. right. exists p. split; congruence.
    + intros [H | (payload & H & W')]; [discriminate|].
      injection H as <-. congruence.
  - split.
    + intros H. left. exact H.
    + intros [H | (payload & H & _)]; [exact H | discriminate H].
Qed.

Lemma run_success payload :
  fetch_and_extract F args = Ok payload ->
  print w (JsonLine false payload) = Ok tt ->
  script w = {| stdout := [JsonLine false payload]; stderr := library_log w;
                exit_code := 0 |}.
Proof.
  intros H W. assert (T : try_body w F args = Ok payload)
    by (apply try_body_ok; auto).
  unfold script, main. rewrite imported, parsed, T. reflexivity.
Qed.

Lemma run_raised e :
  try_body w F args = Raise e ->
  script w = {| stdout := [JsonLine true (error_payload e args)];
                stderr := library_log w; exit_code := 1 |}.
Proof.
  intros T. unfold script, main. rewrite imported, parsed, T. reflexivity.
Qed.

Lemma run_failure e :
  fetch_and_extract F args = Raise e ->
  script w = {| stdout := [JsonLine true (error_payload e args)];
                stderr := library_log w; exit_code := 1 |}.
Proof. intros H. apply run_raised, try_body_raises. left. exact H. Qed.

Lemma run_print_failure payload e :
  fetch_and_extract F args = Ok payload ->
  print w (JsonLine false payload) = Raise e ->
  script w = {| stdout := [JsonLine true (error_payload e args)];
                stderr := library_log w; exit_code := 1 |}.
Proof. intros H W. apply run_raised, try_body_raises. right. eauto. Qed.

Lemma exit_zero_success :
  exit_code (script w) = 0%Z ->
  exists payload,
    fetch_and_extract F args = Ok payload /\
    print w (JsonLine false payload) = Ok tt.
Proof.
  destruct (try_body w F args) as [payload|e] eqn:T.
  - intros _. exists payload. apply try_body_ok, T.
  - rewrite (run_raised _ T). discriminate.
Qed.

Lemma exit_one_failure :
  exit_code (script w) = 1%Z ->
  exists e, try_body w F args = Raise e.
Proof.
  destruct (try_body w F args) as [payload|e] eqn:T; [|eauto].
  apply try_body_ok in T as [H W]. rewrite (run_success _ H W). discriminate.
Qed.

End Runs.

Arguments try_body_ok w F args payload : clear implicits.
Arguments try_body_raises w F args e : clear implicits.
Arguments run_success {w F args} imported parsed {payload} _ _.
Arguments run_raised {w F args} imported parsed {e} _.
Arguments run_failure {w F args} imported parsed {e} _.
Arguments run_print_failure {w F args} imported parsed {payload e} _ _.
Arguments exit_zero_success {w F args} imported parsed _.
Arguments exit_one_failure {w F args} imported parsed _.

Lemma run_import_failure w e :
  import_Fetcher w = Raise e ->
  script w = {| stdout := [JsonLine true (import_failed_payload e)];
                stderr := []; exit_code := 2 |}.
Proof. intros H. unfold script. rewrite H. reflexivity. Qed.

Arguments run_import_failure {w e} _.

Lemma run_usage_error w F message :
  import_Fetcher w = Ok F -> parse_args w = ParseError message ->
  script w = {| stdout := []; stderr := [message]; exit_code := 2 |}.
Proof. intros H1 H2. unfold script, main. rewrite H1, H2. reflexivity. Qed.

Arguments run_usage_error {w F message} _ _.

Lemma run_help w F :
  import_Fetcher w = Ok F -> parse_args w = ParseHelp ->
  script w = {| stdout := [HelpMessage]; stderr := []; exit_code := 0 |}.
Proof. intros H1 H2. unfold script, main. rewrite H1, H2. reflexivity. Qed.

Arguments run_help {w F} _ _.

(** Every invocation goes one of five ways. *)
Lemma invocation_cases w :
  capability_unavailable w \/ usage_error w \/ help_requested w \/
  succeeded w \/ raised w.
Proof.
  unfold capability_unavailable, usage_error, help_requested, succeeded, raised.
  destruct (import_Fetcher w) as [F|e] eqn:I; [|eauto].
  destruct (parse_args w) as [args| |message] eqn:P.
  - destruct (try_body w F args) as [payload|e] eqn:T.
    + apply try_body_ok in T as [H W]. do 3 right. left. eauto 8.
    + apply try_body_raises in T. do 4 right. eauto 8.
  - do 2 right. left. eauto.
  - right. left. eauto.
Qed.

(** ** Exit codes and failure output *)

(** C9.  When [scrapling] cannot be imported the script prints one JSON
    object with ["ok": false] and an ["error"] that starts with
    [scrapling_import_failed:], and exits with status 2.  The argument
    parser is not reached: nothing is written to standard error and the
    outcome is the same for every command line. *)
Theorem import_failure_reported (w : World) (e : exn) :
  import_Fetcher w = Raise e ->
  exists obj message,
    stdout (script w) = [JsonLine true obj] /\
    json_object (dumps true obj) /\
    dict_get "ok" obj = Some (PyBool false) /\
    dict_get "error" obj = Some (PyStr message) /\
    starts_with (lit "scrapling_import_failed:") message /\
    message = lit "scrapling_import_failed: " ++ str e /\
    exit_code (script w) = 2%Z /\
    stderr (script w) = [] /\
    forall cmd, script (with_command_line w cmd) = script w.
Proof.
  intros H. exists (import_failed_payload e), (lit "scrapling_import_failed: " ++ str e).
  rewrite (run_import_failure H). simpl.
  repeat split; auto using import_failed_payload_json.
  - exists (32%N :: str e). reflexivity.
  - intros cmd. apply run_import_failure. exact H.
Qed.

Lemma import_failure_reported_witness :
  import_Fetcher import_failed_world
  = Raise (Exception (lit "No module named 'scrapling'")) /\
  exists obj message,
    stdout (script import_failed_world) = [JsonLine true obj] /\
    json_object (dumps true obj) /\
    dict_get "ok" obj = Some (PyBool false) /\
    dict_get "error" obj = Some (PyStr message) /\
    starts_with (lit "scrapling_import_failed:") message /\
    message = lit "scrapling_import_failed: "
              ++ str (Exception (lit "No module named 'scrapling'")) /\
    exit_code (script import_failed_world) = 2%Z /\
    stderr (script import_failed_world) = [] /\
    forall cmd,
      script (with_command_line import_failed_world cmd)
      = script import_failed_world.
Proof.
  split; [reflexivity|].
  apply (import_failure_reported import_failed_world). reflexivity.
Defined.

(** C1, as the code has it.  When the capability cannot be loaded, and
    when an error leaves the fetch, the extraction or the [print] of
    their result, standard output receives exactly one line and it is
    the text of a JSON object. *)
Theorem failure_output_is_json (w : World) :
  capability_unavailable w \/ raised w ->
  prints_valid_json (script w) /\ exit_code (script w) <> 0%Z.
Proof.
  intros [[e H] | (F & args & e & I & P & H)].
  - rewrite (run_import_failure H). split; [|discriminate].
    exists true, (import_failed_payload e).
    auto using import_failed_payload_json.
  - apply (try_body_raises w F args e) in H.
    rewrite (run_raised I P H). split; [|discriminate].
    exists true, (error_payload e args). auto using error_payload_json.
Qed.

Lemma failure_output_is_json_witness :
  (capability_unavailable refused_world \/ raised refused_world) /\
  prints_valid_json (script refused_world) /\
  exit_code (script refused_world) <> 0%Z.
Proof.
  assert (H : capability_unavailable refused_world \/ raised refused_world).
  { right. do 3 eexists. split; [reflexivity|]. split; [reflexivity|].
    left. reflexivity. }
  split; [exact H | exact (failure_output_is_json _ H)].
Defined.

(** C1 fails when the argument parser rejects the command line: the
    script started without arguments exits with a non-zero status and
    writes nothing to standard output. *)
Lemma usage_error_prints_no_json :
  usage_error no_arguments_world /\
  exit_code (script no_arguments_world) <> 0%Z /\
  stdout (script no_arguments_world) = [] /\
  ~ prints_valid_json (script no_arguments_world).
Proof.
  split; [|split; [|split]].
  - do 2 eexists. split; reflexivity.
  - discriminate.
  - reflexivity.
  - intros (ea & obj & H & _). discriminate H.
Qed.

(** C2, as the code has it.  The exit status is 0 exactly when the fetch
    and the extraction succeed and their result is printed, or the
    argument parser printed its help; 1 exactly when an error leaves the
    fetch, the extraction or the [print] of their result; and 2 exactly
    when the capability is unavailable or the argument parser rejects
    the command line. *)
Theorem exit_code_meaning (w : World) :
  (exit_code (script w) = 0%Z <-> succeeded w \/ help_requested w) /\
  (exit_code (script w) = 1%Z <-> raised w) /\
  (exit_code (script w) = 2%Z <-> capability_unavailable w \/ usage_error w).
Proof.
  destruct (invocation_cases w)
    as [U | [U | [U | [U | U]]]]; pose proof U as U';
    unfold capability_unavailable, usage_error, help_requested, succeeded,
      raised in *.
  - destruct U' as [e H]. rewrite (run_import_failure H). settle.
  - destruct U' as (F & m & I & P). rewrite (run_usage_error I P). settle.
  - destruct U' as (F & I & P). rewrite (run_help I P). settle.
  - destruct U' as (F & args & payload & I & P & H & W).
    rewrite (run_success I P H W). settle.
  - destruct U' as (F & args & e & I & P & H).
    apply (try_body_raises w F args e) in H.
    rewrite (run_raised I P H). settle.
Qed.

Lemma exit_code_meaning_witness :
  (exit_code (script no_arguments_world) = 0%Z
   <-> succeeded no_arguments_world \/ help_requested no_arguments_world) /\
  (exit_code (script no_arguments_world) = 1%Z <-> raised no_arguments_world) /\
  (exit_code (script no_arguments_world) = 2%Z
   <-> capability_unavailable no_arguments_world
       \/ usage_error no_arguments_world).
Proof. exact (exit_code_meaning no_arguments_world). Defined.

(** C2 fails when the argument parser rejects the command line: the
    capability is available and the exit status is 2. *)
Lemma usage_error_exits_with_two :
  (exists F, import_Fetcher no_arguments_world = Ok F) /\
  ~ capability_unavailable no_arguments_world /\
  exit_code (script no_arguments_world) = 2%Z.
Proof.
  split; [|split].
  - eexists. reflexivity.
  - intros [e H]. discriminate H.
  - reflexivity.
Qed.

(** ** The shape of the payload *)

Lemma truthy_nonempty s : truthy s = true <-> s <> [].
Proof.
  unfold truthy, len. destruct s as [|c s]; simpl length.
  - simpl. split; intros; congruence.
  - destruct (Z.eqb_spec (Z.of_nat (S (length s))) 0); [lia|].
    simpl. split; intros; congruence.
Qed.

Lemma selector_fields_shape page sel p0 payload :
  selector_fields page sel p0 = Ok payload ->
  exists nodes items,
    css page sel = Ok nodes /\
    comprehension trimmed_text (slice_to 20 nodes) = Ok items /\
    payload = dict_set "items" (PyList items)
                (dict_set "count" (PyInt (len nodes))
                   (dict_set "selector" (PyStr sel) p0)).
Proof.
  unfold selector_fields. intros H.
  apply bind_ok in H as (nodes & Hn & H).
  apply bind_ok in H as (items & Hi & H).
  injection H as <-. eauto.
Qed.

Lemma preview_field_shape page p0 payload :
  preview_field page p0 = Ok payload ->
  exists t,
    page_text page = Ok t /\
    payload = dict_set "text_preview"
                (PyStr (slice_to 1000 (strip (or_empty t)))) p0.
Proof.
  unfold preview_field. intros H.
  apply bind_ok in H as (t & Ht & H). injection H as <-. eauto.
Qed.

(** Which branch of [if args.selector] runs. *)
Lemma extend_selector args page p0 sel :
  selector args = Some sel -> sel <> [] ->
  extend args page p0 = selector_fields page sel p0.
Proof.
  intros S N. unfold extend. rewrite S.
  rewrite (proj2 (truthy_nonempty sel) N). reflexivity.
Qed.

Arguments extend_selector {args} page p0 {sel} _ _.

Lemma extend_no_selector args page p0 :
  selector args = None \/ selector args = Some [] ->
  extend args page p0 = preview_field page p0.
Proof. unfold extend. intros [-> | ->]; reflexivity. Qed.

Lemma extend_keeps k args page p0 payload :
  k <> "selector" -> k <> "count" -> k <> "items" -> k <> "text_preview" ->
  extend args page p0 = Ok payload ->
  dict_get k payload = dict_get k p0.
Proof.
  intros N1 N2 N3 N4 H. unfold extend in H.
  assert (P : preview_field page p0 = Ok payload ->
              dict_get k payload = dict_get k p0).
  { intros E. apply preview_field_shape in E as (t & _ & ->).
    apply dict_get_set_other, N4. }
  destruct (selector args) as [sel|]; [|auto].
  destruct (truthy sel); [|auto].
  apply selector_fields_shape in H as (nodes & items & _ & _ & ->).
  rewrite !dict_get_set_other; auto.
Qed.

Lemma fetch_and_extract_shape F args payload :
  fetch_and_extract F args = Ok payload ->
  exists page,
    F (timeout args) (url args) = Ok page /\
    extend args page (initial_payload args (extract_title page)) = Ok payload.
Proof.
  unfold fetch_and_extract, extract. intros H.
  apply bind_ok in H as (page & Hp & H). eauto.
Qed.

Lemma fetched_page F args page :
  F (timeout args) (url args) = Ok page ->
  fetch_and_extract F args
  = extend args page (initial_payload args (extract_title page)).
Proof. intros H. unfold fetch_and_extract. rewrite H. reflexivity. Qed.

Arguments fetched_page {F args page} _.

(** ** Exceptions that leave the fetch and the extraction *)

Lemma comprehension_raises {A B} (f : A -> result B) l e :
  comprehension f l = Raise e <->
  exists before a after,
    l = before ++ a :: after /\
    Forall (fun x => exists b, f x = Ok b) before /\ f a = Raise e.
Proof.
  induction l as [|x l IH]; simpl.
  - split; [discriminate|].
    intros (before & a & after & H & _). destruct before; discriminate.
  - destruct (f x) as [b|e'] eqn:Fx; simpl.
    + assert (R : (bs <- comprehension f l ;; Ok (b :: bs)) = Raise e
                  <-> comprehension f l = Raise e).
      { destruct (comprehension f l); simpl; split; congruence. }
      rewrite R, IH. split.
      * intros (before & a & after & -> & Hb & Ha).
        exists (x :: before), a, after. repeat split; eauto.
      * intros ([|y before] & a & after & H & Hb & Ha);
          injection H as -> ->; [congruence|].
        inversion Hb; subst. eauto 6.
    + split.
      * intros H. injection H as ->. exists [], x, l. repeat split; auto.
      * intros ([|y before] & a & after & H & Hb & Ha);
          injection H as -> ->; [congruence|].
        inversion Hb as [|? ? [b Hy] _]; subst. congruence.
Qed.

Lemma trimmed_text_ok n :
  (exists b, trimmed_text n = Ok b) <-> exists t, node_text n = Ok t.
Proof.
  unfold trimmed_text. destruct (node_text n) as [t|e]; simpl.
  - split; eauto.
  - split; intros [? H]; discriminate.
Qed.

Lemma trimmed_text_raises n e :
  trimmed_text n = Raise e <-> node_text n = Raise e.
Proof.
  unfold trimmed_text. destruct (node_text n); simpl; split; congruence.
Qed.

Lemma selector_fields_raises page sel p0 e :
  selector_fields page sel p0 = Raise e <->
  css page sel = Raise e \/
  exists nodes before n after,
    css page sel = Ok nodes /\
    slice_to 20 nodes = before ++ n :: after /\
    Forall (fun m => exists t, node_text m = Ok t) before /\
    node_text n = Raise e.
Proof.
  unfold selector_fields.
  destruct (css page sel) as [nodes|e'] eqn:Q; simpl.
  - assert (R : (items <- comprehension trimmed_text (slice_to 20 nodes) ;;
                 Ok (dict_set "items" (PyList items)
                       (dict_set "count" (PyInt (len nodes))
                          (dict_set "selector" (PyStr sel) p0)))) = Raise e
                <-> comprehension trimmed_text (slice_to 20 nodes) = Raise e).
    { destruct (comprehension trimmed_text (slice_to 20 nodes)); simpl;
        split; congruence. }
    rewrite R, comprehension_raises. split.
    + intros (before & n & after & L & Hb & Hn). right.
      exists nodes, before, n, after. repeat split; auto.
      * revert Hb. apply Forall_impl. intros m. apply trimmed_text_ok.
      * apply trimmed_text_raises, Hn.
    + intros [H | (nodes' & before & n & after & H & L & Hb & Hn)];
        [discriminate|]. injection H as <-.
      exists before, n, after. repeat split; auto.
      * revert Hb. apply Forall_impl. intros m. apply trimmed_text_ok.
      * apply trimmed_text_raises, Hn.
  - split.
    + intros H. left. congruence.
    + intros [H | (nodes & ? & ? & ? & H & _)]; [congruence | discriminate].
Qed.

Lemma preview_field_raises page p0 e :
  preview_field page p0 = Raise e <-> page_text page = Raise e.
Proof.
  unfold preview_field. destruct (page_text page); simpl;
    split; intros H; congruence.
Qed.

(** The exceptions that leave the [try] body are those of [escapes]. *)
Lemma fetch_and_extract_raises F args e :
  fetch_and_extract F args = Raise e <-> escapes F args e.
Proof.
  unfold fetch_and_extract, extract.
  destruct (F (timeout args) (url args)) as [page|e'] eqn:G; simpl.
  - split.
    + intros H.
      destruct (selector args) as [[|c sel]|] eqn:S.
      * rewrite (extend_no_selector _ _ _ (or_intror S)) in H.
        apply preview_field_raises in H. eapply page_text_raises; eauto.
      * rewrite (extend_selector _ _ S) in H by discriminate.
        apply selector_fields_raises in H
          as [H | (nodes & before & n & after & Q & L & Hb & Hn)].
        -- eapply query_raises; eauto. discriminate.
        -- eapply match_text_raises; eauto. discriminate.
      * rewrite (extend_no_selector _ _ _ (or_introl S)) in H.
        apply preview_field_raises in H. eapply page_text_raises; eauto.
    + intros [H | page' sel G' S N Q
              | page' sel nodes before n after G' S N Q L Hb Hn
              | page' G' S T]; try congruence;
        assert (page' = page) as -> by congruence.
      * rewrite (extend_selector _ _ S N).
        apply selector_fields_raises. left. exact Q.
      * rewrite (extend_selector _ _ S N).
        apply selector_fields_raises. right. eauto 9.
      * rewrite (extend_no_selector _ _ _ S).
        apply preview_field_raises. exact T.
  - split.
    + intros H. apply fetch_raises. congruence.
    + intros [H | page' sel G' S N Q
              | page' sel nodes before n after G' S N Q L Hb Hn
              | page' G' S T]; congruence.
Qed.

(** An invocation has [raised] exactly when one of these exceptions
    occurred after the arguments were parsed, or the [print] of the
    result raised. *)
Lemma raised_escapes w :
  raised w <->
  exists F args e,
    import_Fetcher w = Ok F /\ parse_args w = Parsed args /\
    (escapes F args e \/
     exists payload,
       fetch_and_extract F args = Ok payload /\
       print w (JsonLine false payload) = Raise e).
Proof.
  unfold raised. split; intros (F & args & e & I & P & [H | H]);
    exists F, args, e; repeat split; auto; left;
    apply fetch_and_extract_raises, H.
Qed.

(** ** The selector fields *)

(** C3, as the code has it.  When a non-empty [--selector] is supplied
    and the invocation succeeds, the printed object has the keys
    [selector], [count] and [items] and has no [text_preview]. *)
Theorem selector_fields_present (w : World) (F : Fetcher) (args : Namespace)
        (sel : pystr) :
  import_Fetcher w = Ok F ->
  parse_args w = Parsed args ->
  selector args = Some sel ->
  sel <> [] ->
  exit_code (script w) = 0%Z ->
  exists payload,
    stdout (script w) = [JsonLine false payload] /\
    dict_get "selector" payload = Some (PyStr sel) /\
    has_key "count" payload = true /\
    has_key "items" payload = true /\
    has_key "text_preview" payload = false.
Proof.
  intros I P S N X.
  destruct (exit_zero_success I P X) as (payload & E & W).
  exists payload. rewrite (run_success I P E W). split; [reflexivity|].
  apply fetch_and_extract_shape in E as (page & _ & E).
  rewrite (extend_selector _ _ S N) in E.
  apply selector_fields_shape in E as (nodes & items & _ & _ & ->).
  repeat split; reflexivity.
Qed.

Lemma selector_fields_present_witness :
  import_Fetcher (sample_world sample_page (Some (lit "p")))
  = Ok (serve sample_page) /\
  parse_args (sample_world sample_page (Some (lit "p")))
  = Parsed (sample_args (Some (lit "p"))) /\
  selector (sample_args (Some (lit "p"))) = Some (lit "p") /\
  lit "p" <> [] /\
  exit_code (script (sample_world sample_page (Some (lit "p")))) = 0%Z /\
  exists payload,
    stdout (script (sample_world sample_page (Some (lit "p"))))
    = [JsonLine false payload] /\
    dict_get "selector" payload = Some (PyStr (lit "p")) /\
    has_key "count" payload = true /\
    has_key "items" payload = true /\
    has_key "text_preview" payload = false.
Proof.
  assert (N : lit "p" <> []) by discriminate.
  repeat (split; [first [reflexivity | exact N]|]).
  exact (selector_fields_present
           (sample_world sample_page (Some (lit "p"))) (serve sample_page)
           (sample_args (Some (lit "p"))) (lit "p")
           eq_refl eq_refl eq_refl N eq_refl).
Defined.

(** C3 fails for the empty selector: an empty [--selector] is supplied, the
    fetch succeeds, and the printed object has [text_preview] and none
    of the selector fields. *)
Lemma empty_selector_gives_preview :
  selector (sample_args (Some [])) = Some [] /\
  serve sample_page (timeout (sample_args (Some [])))
        (url (sample_args (Some []))) = Ok sample_page /\
  exit_code (script (sample_world sample_page (Some []))) = 0%Z /\
  exists payload,
    stdout (script (sample_world sample_page (Some [])))
    = [JsonLine false payload] /\
    has_key "selector" payload = false /\
    has_key "count" payload = false /\
    has_key "items" payload = false /\
    has_key "text_preview" payload = true.
Proof.
  repeat (split; [reflexivity|]).
  eexists. split; [reflexivity|]. repeat split; reflexivity.
Qed.

(** C5, as the code has it.  In a successful invocation whose selector
    is not the empty string (so that line 35 lets the query be made) and
    whose query returns the nodes [nodes], [count] is the number of all
    matches, [items] holds the trimmed text of the first 20 matches in
    their order (the text without the whitespace at its two ends, and
    with nothing else removed), and [len(items) = min(count, 20)]. *)
Theorem count_and_items (w : World) (F : Fetcher) (args : Namespace)
        (page : Page) (sel : pystr) (nodes : list Node) :
  import_Fetcher w = Ok F ->
  parse_args w = Parsed args ->
  selector args = Some sel ->
  sel <> [] ->
  F (timeout args) (url args) = Ok page ->
  css page sel = Ok nodes ->
  exit_code (script w) = 0%Z ->
  exists payload items,
    stdout (script w) = [JsonLine false payload] /\
    dict_get "count" payload = Some (PyInt (len nodes)) /\
    dict_get "items" payload = Some (PyList items) /\
    Forall2 (fun n it => exists t s,
                 node_text n = Ok t /\ it = PyStr s /\
                 s = strip t /\ trimmed_of t s)
            (slice_to 20 nodes) items /\
    len items = Z.min (len nodes) 20.
Proof.
  intros I P S N G Q X.
  destruct (exit_zero_success I P X) as (payload & E & W).
  rewrite (run_success I P E W). clear W.
  rewrite (fetched_page G), (extend_selector _ _ S N) in E.
  apply selector_fields_shape in E as (nodes' & items & Q' & C & ->).
  assert (nodes' = nodes) as -> by congruence.
  eexists. exists items. do 3 (split; [reflexivity|]). split.
  - apply comprehension_ok in C.
    revert C. apply Forall2_impl. intros n it H. unfold trimmed_text in H.
    destruct (node_text n) as [t|e]; simpl in H; [|discriminate].
    injection H as <-. exists t, (strip t).
    do 3 (split; [reflexivity|]).
    destruct (strip_split t) as (lead & trail & T & A & A').
    exists lead, trail.
    auto using strip_no_leading_space, strip_no_trailing_space.
  - apply comprehension_ok, Forall2_same_length in C.
    unfold len. rewrite <- C, slice_length_min. lia.
Qed.

Lemma count_and_items_witness :
  import_Fetcher (sample_world sample_page (Some (lit "p")))
  = Ok (serve sample_page) /\
  parse_args (sample_world sample_page (Some (lit "p")))
  = Parsed (sample_args (Some (lit "p"))) /\
  selector (sample_args (Some (lit "p"))) = Some (lit "p") /\
  lit "p" <> [] /\
  serve sample_page (timeout (sample_args (Some (lit "p"))))
        (url (sample_args (Some (lit "p")))) = Ok sample_page /\
  css sample_page (lit "p")
  = Ok (text_node "  first " :: repeat (text_node "more") 21) /\
  exit_code (script (sample_world sample_page (Some (lit "p")))) = 0%Z /\
  exists payload items,
    stdout (script (sample_world sample_page (Some (lit "p"))))
    = [JsonLine false payload] /\
    dict_get "count" payload = Some (PyInt 22) /\
    dict_get "items" payload = Some (PyList items) /\
    Forall2 (fun n it => exists t s,
                 node_text n = Ok t /\ it = PyStr s /\
                 s = strip t /\ trimmed_of t s)
            (slice_to 20 (text_node "  first " :: repeat (text_node "more") 21))
            items /\
    len items = Z.min 22 20.
Proof.
  assert (N : lit "p" <> []) by discriminate.
  do 3 (split; [reflexivity|]). split; [exact N|].
  do 3 (split; [reflexivity|]).
  exact (count_and_items
           (sample_world sample_page (Some (lit "p"))) (serve sample_page)
           (sample_args (Some (lit "p"))) sample_page (lit "p")
           (text_node "  first " :: repeat (text_node "more") 21)
           eq_refl eq_refl eq_refl N eq_refl eq_refl eq_refl).
Defined.

(** What the sample run prints: the first item has lost its blanks. *)
Example sample_items_run :
  stdout (script (sample_world sample_page (Some (lit "p"))))
  = [JsonLine false
       [("ok", PyBool true); ("url", PyStr (lit "https://example.com"));
        ("title", PyStr (lit "Example Domain"));
        ("selector", PyStr (lit "p")); ("count", PyInt 22);
        ("items",
         PyList (PyStr (lit "first") :: repeat (PyStr (lit "more")) 19))]].
Proof. reflexivity. Qed.

(** C5 fails for the empty selector: an empty [--selector] is supplied,
    its query would return a node, the invocation succeeds, and the
    printed object has no [count] and no [items], because line 35 does
    not let the query be made. *)
Lemma empty_selector_has_no_count :
  selector (sample_args (Some [])) = Some [] /\
  serve matching_page (timeout (sample_args (Some [])))
        (url (sample_args (Some []))) = Ok matching_page /\
  css matching_page [] = Ok [text_node " match "] /\
  exit_code (script (sample_world matching_page (Some []))) = 0%Z /\
  exists payload,
    stdout (script (sample_world matching_page (Some [])))
    = [JsonLine false payload] /\
    has_key "count" payload = false /\
    has_key "items" payload = false.
Proof.
  do 4 (split; [reflexivity|]).
  eexists. split; [reflexivity|]. split; reflexivity.
Qed.

(** ** The text preview *)

(** C4, as the code has it.  In a successful invocation without a
    selector, [text_preview] is the first 1000 characters of the trimmed
    text of the document (the empty string when the text accessor gives
    [None]); it has at most 1000 characters and no leading whitespace,
    and it has no trailing whitespace when the trimmed text has at most
    1000 characters. *)
Theorem text_preview_value (w : World) (F : Fetcher) (args : Namespace)
        (page : Page) :
  import_Fetcher w = Ok F ->
  parse_args w = Parsed args ->
  selector args = None ->
  F (timeout args) (url args) = Ok page ->
  exit_code (script w) = 0%Z ->
  exists payload raw preview,
    stdout (script w) = [JsonLine false payload] /\
    page_text page = Ok raw /\
    dict_get "text_preview" payload = Some (PyStr preview) /\
    preview = slice_to 1000 (strip (or_empty raw)) /\
    (raw = None -> preview = []) /\
    (length preview <= 1000)%nat /\
    starts_with_space preview = false /\
    ((length (strip (or_empty raw)) <= 1000)%nat ->
     ends_with_space preview = false).
Proof.
  intros I P S G X.
  destruct (exit_zero_success I P X) as (payload & E & W).
  rewrite (run_success I P E W). clear W.
  rewrite (fetched_page G), (extend_no_selector _ _ _ (or_introl S)) in E.
  apply preview_field_shape in E as (raw & T & ->).
  eexists. exists raw. eexists.
  do 4 (split; [reflexivity || exact T|]).
  split; [|split; [|split]].
  - intros ->. reflexivity.
  - apply slice_length.
  - apply slice_keeps_head, strip_no_leading_space.
  - intros L. rewrite (slice_all _ _ L). apply strip_no_trailing_space.
Qed.

Lemma text_preview_value_witness :
  import_Fetcher (sample_world sample_page None) = Ok (serve sample_page) /\
  parse_args (sample_world sample_page None) = Parsed (sample_args None) /\
  selector (sample_args None) = None /\
  serve sample_page (timeout (sample_args None)) (url (sample_args None))
  = Ok sample_page /\
  exit_code (script (sample_world sample_page None)) = 0%Z /\
  exists payload raw preview,
    stdout (script (sample_world sample_page None)) = [JsonLine false payload] /\
    page_text sample_page = Ok raw /\
    dict_get "text_preview" payload = Some (PyStr preview) /\
    preview = slice_to 1000 (strip (or_empty raw)) /\
    (raw = None -> preview = []) /\
    (length preview <= 1000)%nat /\
    starts_with_space preview = false /\
    ((length (strip (or_empty raw)) <= 1000)%nat ->
     ends_with_space preview = false).
Proof.
  repeat (split; [reflexivity|]).
  exact (text_preview_value (sample_world sample_page None) (serve sample_page)
           (sample_args None) sample_page
           eq_refl eq_refl eq_refl eq_refl eq_refl).
Defined.

(** C4 fails on a long text: the trimmed text of [long_page] has a space
    as its 1000th character, and the preview ends with it. *)
Lemma long_preview_ends_with_space :
  selector (sample_args None) = None /\
  exit_code (script (sample_world long_page None)) = 0%Z /\
  exists payload preview,
    stdout (script (sample_world long_page None)) = [JsonLine false payload] /\
    dict_get "text_preview" payload = Some (PyStr preview) /\
    length preview = 1000%nat /\
    ends_with_space preview = true.
Proof.
  split; [reflexivity|]. split; [reflexivity|].
  exists [("ok", PyBool true); ("url", PyStr (lit "https://example.com"));
          ("title", PyNone);
          ("text_preview", PyStr (repeat 97%N 999 ++ [32%N]))],
         (repeat 97%N 999 ++ [32%N]).
  repeat split; vm_compute; reflexivity.
Qed.

(** ** Errors of the fetch and of the extraction *)

(** C6, as the code has it.  When an exception [e] is raised by the
    fetch, the selector query, the text of a match or the text accessor
    (the title lookup swallows its own), the script prints a JSON object
    with ["ok": false], ["error": str(e)] and the requested ["url"], and
    exits with status 1. *)
Theorem exception_reported (w : World) (F : Fetcher) (args : Namespace)
        (e : exn) :
  import_Fetcher w = Ok F ->
  parse_args w = Parsed args ->
  escapes F args e ->
  exists obj,
    stdout (script w) = [JsonLine true obj] /\
    json_object (dumps true obj) /\
    obj = [("ok", PyBool false); ("error", PyStr (str e));
           ("url", PyStr (url args))] /\
    exit_code (script w) = 1%Z.
Proof.
  intros I P H. apply fetch_and_extract_raises in H.
  rewrite (run_failure I P H).
  exists (error_payload e args). simpl.
  repeat split. apply error_payload_json.
Qed.

Lemma exception_reported_witness :
  import_Fetcher refused_world
  = Ok (fun _ _ => Raise (Exception (lit "connection refused"))) /\
  parse_args refused_world = Parsed (sample_args None) /\
  escapes (fun _ _ => Raise (Exception (lit "connection refused")))
          (sample_args None) (Exception (lit "connection refused")) /\
  exists obj,
    stdout (script refused_world) = [JsonLine true obj] /\
    json_object (dumps true obj) /\
    obj = [("ok", PyBool false);
           ("error", PyStr (str (Exception (lit "connection refused"))));
           ("url", PyStr (url (sample_args None)))] /\
    exit_code (script refused_world) = 1%Z.
Proof.
  assert (H : escapes (fun _ _ => Raise (Exception (lit "connection refused")))
                      (sample_args None) (Exception (lit "connection refused")))
    by (apply fetch_raises; reflexivity).
  do 2 (split; [reflexivity|]). split; [exact H|].
  exact (exception_reported refused_world _ (sample_args None) _
           eq_refl eq_refl H).
Defined.

(** C6 fails for an exception without a message: the fetch raises, the
    exit status is 1, and the [error] string is empty. *)
Lemma silent_exception_has_empty_error :
  raised silent_failure_world /\
  exit_code (script silent_failure_world) = 1%Z /\
  exists obj,
    stdout (script silent_failure_world) = [JsonLine true obj] /\
    dict_get "ok" obj = Some (PyBool false) /\
    dict_get "error" obj = Some (PyStr []).
Proof.
  split; [|split; [reflexivity|]].
  - do 3 eexists. split; [reflexivity|]. split; [reflexivity|].
    left. reflexivity.
  - eexists. repeat split; reflexivity.
Qed.

(** C7, as the code has it.  Once the capability is loaded and the
    arguments are parsed, the printed object has a [url] equal to the
    requested URL, on success and on failure. *)
Theorem url_is_echoed (w : World) (F : Fetcher) (args : Namespace) :
  import_Fetcher w = Ok F ->
  parse_args w = Parsed args ->
  exists obj,
    prints_object (script w) obj /\
    dict_get "url" obj = Some (PyStr (url args)).
Proof.
  intros I P. destruct (try_body w F args) as [payload|e] eqn:E.
  - apply try_body_ok in E as [E W].
    exists payload. rewrite (run_success I P E W).
    split; [exists false; reflexivity|].
    apply fetch_and_extract_shape in E as (page & _ & E).
    assert (K : dict_get "url" payload
                = dict_get "url" (initial_payload args (extract_title page)))
      by (revert E; apply extend_keeps; discriminate).
    rewrite K. reflexivity.
  - exists (error_payload e args). rewrite (run_raised I P E).
    split; [exists true; reflexivity | reflexivity].
Qed.

Lemma url_is_echoed_witness :
  import_Fetcher refused_world
  = Ok (fun _ _ => Raise (Exception (lit "connection refused"))) /\
  parse_args refused_world = Parsed (sample_args None) /\
  exists obj,
    prints_object (script refused_world) obj /\
    dict_get "url" obj = Some (PyStr (url (sample_args None))).
Proof.
  repeat (split; [reflexivity|]).
  exact (url_is_echoed refused_world _ (sample_args None) eq_refl eq_refl).
Defined.

(** C7 fails for the import guard: its object has no [url]. *)
Lemma import_failure_has_no_url :
  capability_unavailable import_failed_world /\
  exists obj,
    prints_object (script import_failed_world) obj /\
    has_key "url" obj = false.
Proof.
  split.
  - eexists. reflexivity.
  - eexists. split; [exists true; reflexivity | reflexivity].
Qed.

(** ** The title *)

Lemma title_failure_gives_none page e :
  title_lookup page = Raise e -> extract_title page = PyNone.
Proof. intros H. unfold extract_title. rewrite H. reflexivity. Qed.

(** The index of line 25 never fails: it is guarded by the length. *)
Lemma title_lookup_raises page e :
  title_lookup page = Raise e <->
  css page (lit "title") = Raise e \/
  exists n rest,
    css page (lit "title") = Ok (n :: rest) /\ node_text n = Raise e.
Proof.
  unfold title_lookup.
  destruct (css page (lit "title")) as [[|n rest]|e'] eqn:C; simpl.
  - split; [discriminate|].
    intros [H | (n & rest & H & _)]; discriminate.
  - unfold truthy_int, len. simpl length.
    destruct (Z.eqb_spec (Z.of_nat (S (length rest))) 0); [lia|]. simpl.
    destruct (node_text n) as [t|e''] eqn:T; simpl.
    + split; [discriminate|].
      intros [H | (n' & rest' & H & H')]; [discriminate|].
      injection H as <- <-. congruence.
    + split.
      * intros H. right. exists n, rest. split; congruence.
      * intros [H | (n' & rest' & H & H')]; [discriminate|].
        injection H as <- <-. congruence.
  - split.
    + intros H. left. congruence.
    + intros [H | (n & rest & H & _)]; [congruence | discriminate].
Qed.

(** C8, as the code has it.  When the fetch succeeds and the title
    lookup raises, the exception is swallowed: the run goes on with
    [title = None] exactly as lines 35-42 prescribe, and when these raise
    nothing and the result is printed, the script prints the payload
    with ["title": null], ["ok": true] and the selector fields or the
    text preview, and exits with status 0. *)
Theorem title_failure_not_fatal (w : World) (F : Fetcher) (args : Namespace)
        (page : Page) (e : exn) :
  import_Fetcher w = Ok F ->
  parse_args w = Parsed args ->
  F (timeout args) (url args) = Ok page ->
  title_lookup page = Raise e ->
  fetch_and_extract F args = extend args page (initial_payload args PyNone) /\
  forall payload,
    extend args page (initial_payload args PyNone) = Ok payload ->
    print w (JsonLine false payload) = Ok tt ->
    stdout (script w) = [JsonLine false payload] /\
    exit_code (script w) = 0%Z /\
    dict_get "title" payload = Some PyNone /\
    dict_get "ok" payload = Some (PyBool true) /\
    (has_key "text_preview" payload = true \/
     has_key "selector" payload = true /\ has_key "count" payload = true /\
     has_key "items" payload = true).
Proof.
  intros I P G T.
  assert (E : fetch_and_extract F args
              = extend args page (initial_payload args PyNone)).
  { rewrite (fetched_page G), (title_failure_gives_none _ _ T). reflexivity. }
  split; [exact E|]. intros payload X W.
  assert (R : fetch_and_extract F args = Ok payload) by congruence.
  rewrite (run_success I P R W).
  do 2 (split; [reflexivity|]).
  split; [|split].
  - transitivity (dict_get "title" (initial_payload args PyNone));
      [revert X; apply extend_keeps; discriminate | reflexivity].
  - transitivity (dict_get "ok" (initial_payload args PyNone));
      [revert X; apply extend_keeps; discriminate | reflexivity].
  - unfold extend in X.
    assert (V : preview_field page (initial_payload args PyNone) = Ok payload ->
                has_key "text_preview" payload = true).
    { intros Y. apply preview_field_shape in Y as (raw & _ & ->). reflexivity. }
    destruct (selector args) as [sel|]; [|auto].
    destruct (truthy sel); [|auto].
    apply selector_fields_shape in X as (nodes & items & _ & _ & ->).
    right. repeat split; reflexivity.
Qed.

Lemma title_failure_not_fatal_witness :
  import_Fetcher (sample_world untitled_page None) = Ok (serve untitled_page) /\
  parse_args (sample_world untitled_page None) = Parsed (sample_args None) /\
  serve untitled_page (timeout (sample_args None)) (url (sample_args None))
  = Ok untitled_page /\
  title_lookup untitled_page
  = Raise (Exception (lit "'str' object has no attribute 'text'")) /\
  extend (sample_args None) untitled_page
    (initial_payload (sample_args None) PyNone)
  = Ok [("ok", PyBool true); ("url", PyStr (lit "https://example.com"));
        ("title", PyNone); ("text_preview", PyStr (lit "body"))] /\
  print (sample_world untitled_page None)
    (JsonLine false
       [("ok", PyBool true); ("url", PyStr (lit "https://example.com"));
        ("title", PyNone); ("text_preview", PyStr (lit "body"))]) = Ok tt /\
  fetch_and_extract (serve untitled_page) (sample_args None)
  = extend (sample_args None) untitled_page
      (initial_payload (sample_args None) PyNone) /\
  stdout (script (sample_world untitled_page None))
  = [JsonLine false
       [("ok", PyBool true); ("url", PyStr (lit "https://example.com"));
        ("title", PyNone); ("text_preview", PyStr (lit "body"))]] /\
  exit_code (script (sample_world untitled_page None)) = 0%Z.
Proof.
  do 6 (split; [reflexivity|]).
  pose proof (title_failure_not_fatal (sample_world untitled_page None)
                (serve untitled_page) (sample_args None) untitled_page _
                eq_refl eq_refl eq_refl eq_refl) as [E K].
  split; [exact E|].
  destruct (K _ eq_refl eq_refl) as (O & X & _).
  split; [exact O | exact X].
Defined.

(** C8 fails when a later step raises: on [untitled_page] with the
    selector [!!] the fetch succeeds, the title lookup raises, then the
    selector query raises, and the script reports a failure with exit
    status 1. *)
Lemma title_failure_then_selector_failure :
  serve untitled_page (timeout (sample_args (Some (lit "!!"))))
        (url (sample_args (Some (lit "!!")))) = Ok untitled_page /\
  title_lookup untitled_page
  = Raise (Exception (lit "'str' object has no attribute 'text'")) /\
  exit_code (script (sample_world untitled_page (Some (lit "!!")))) = 1%Z /\
  exists obj,
    stdout (script (sample_world untitled_page (Some (lit "!!"))))
    = [JsonLine true obj] /\
    dict_get "ok" obj = Some (PyBool false) /\
    has_key "title" obj = false.
Proof.
  repeat (split; [reflexivity|]).
  eexists. repeat split; reflexivity.
Qed.

(** ** The empty selector *)

(** C10, as the code has it.  With an empty [--selector] the script does what
    it does without a selector, whatever the collaborators answer; when
    the fetch succeeds, the text accessor raises nothing and the result
    is printed, the printed object has [text_preview] and none of
    [selector], [count] and [items]. *)
Theorem empty_selector_is_no_selector (w : World) (F : Fetcher)
        (args : Namespace) :
  import_Fetcher w = Ok F ->
  parse_args w = Parsed args ->
  selector args = Some [] ->
  script w
  = script (with_command_line w
              (Parsed {| url := url args; selector := None;
                         timeout := timeout args |})) /\
  forall page raw,
    F (timeout args) (url args) = Ok page ->
    page_text page = Ok raw ->
    result_is_printed w F args ->
    exists payload,
      stdout (script w) = [JsonLine false payload] /\
      exit_code (script w) = 0%Z /\
      has_key "text_preview" payload = true /\
      has_key "selector" payload = false /\
      has_key "count" payload = false /\
      has_key "items" payload = false.
Proof.
  intros I P S. split.
  - unfold script, with_command_line. simpl. rewrite I.
    unfold main. simpl. rewrite P.
    unfold try_body, fetch_and_extract, extract, extend. simpl. rewrite S.
    reflexivity.
  - intros page raw G T W.
    assert (E : fetch_and_extract F args
                = Ok (dict_set "text_preview"
                        (PyStr (slice_to 1000 (strip (or_empty raw))))
                        (initial_payload args (extract_title page)))).
    { rewrite (fetched_page G), (extend_no_selector _ _ _ (or_intror S)).
      unfold preview_field. rewrite T. reflexivity. }
    rewrite (run_success I P E (W _ E)). eexists. split; [reflexivity|].
    repeat split; reflexivity.
Qed.

Lemma empty_selector_is_no_selector_witness :
  import_Fetcher (sample_world sample_page (Some [])) = Ok (serve sample_page) /\
  parse_args (sample_world sample_page (Some [])) = Parsed (sample_args (Some [])) /\
  selector (sample_args (Some [])) = Some [] /\
  serve sample_page (timeout (sample_args (Some [])))
        (url (sample_args (Some []))) = Ok sample_page /\
  page_text sample_page = Ok (Some (lit "  Example Domain  ")) /\
  result_is_printed (sample_world sample_page (Some [])) (serve sample_page)
    (sample_args (Some [])) /\
  script (sample_world sample_page (Some []))
  = script (with_command_line (sample_world sample_page (Some []))
              (Parsed {| url := url (sample_args (Some [])); selector := None;
                         timeout := timeout (sample_args (Some [])) |})) /\
  exists payload,
    stdout (script (sample_world sample_page (Some [])))
    = [JsonLine false payload] /\
    exit_code (script (sample_world sample_page (Some []))) = 0%Z /\
    has_key "text_preview" payload = true /\
    has_key "selector" payload = false /\
    has_key "count" payload = false /\
    has_key "items" payload = false.
Proof.
  assert (W : result_is_printed (sample_world sample_page (Some []))
                (serve sample_page) (sample_args (Some []))).
  { intros payload H. vm_compute in H. injection H as <-. reflexivity. }
  do 5 (split; [reflexivity|]). split; [exact W|].
  pose proof (empty_selector_is_no_selector (sample_world sample_page (Some []))
                (serve sample_page) (sample_args (Some []))
                eq_refl eq_refl eq_refl) as [E K].
  split; [exact E|].
  exact (K sample_page (Some (lit "  Example Domain  ")) eq_refl eq_refl W).
Defined.

(** C10 fails when the text accessor raises: an empty [--selector] is
    supplied, the fetch succeeds, and the printed object has no
    [text_preview]. *)
Lemma empty_selector_without_text :
  selector (sample_args (Some [])) = Some [] /\
  serve textless_page (timeout (sample_args (Some [])))
        (url (sample_args (Some []))) = Ok textless_page /\
  exists obj,
    stdout (script (sample_world textless_page (Some []))) = [JsonLine true obj] /\
    has_key "text_preview" obj = false /\
    exit_code (script (sample_world textless_page (Some []))) = 1%Z.
Proof.
  repeat (split; [reflexivity|]).
  eexists. repeat split; reflexivity.
Qed.

(** * Further properties *)

(** ** Blank texts *)

Lemma or_empty_all_space raw :
  all_space (or_empty raw) = true <->
  raw = None \/ exists s, raw = Some s /\ all_space s = true.
Proof.
  destruct raw as [s|]; [|simpl; split; [auto | reflexivity]].
  destruct s as [|c s].
  - simpl. split; [right; exists []; auto | reflexivity].
  - assert (T : truthy (c :: s) = true) by (apply truthy_nonempty; discriminate).
    unfold or_empty. rewrite T. split.
    + intros H. right. exists (c :: s). auto.
    + intros [H | (s' & H & A)]; [discriminate|]. injection H as <-. exact A.
Qed.

(** ** List comprehensions that finish *)

Lemma comprehension_total {A B} (f : A -> result B) l :
  Forall (fun a => exists b, f a = Ok b) l <->
  exists bs, comprehension f l = Ok bs.
Proof.
  induction l as [|a l IH]; simpl.
  - split; [eauto | constructor].
  - split.
    + intros H. inversion H as [|? ? [b Hb] Hl]; subst.
      apply IH in Hl as [bs Hbs]. rewrite Hb, Hbs. simpl. eauto.
    + intros [bs H]. apply bind_ok in H as (b & Hb & H).
      apply bind_ok in H as (bs' & Hbs & _).
      constructor; [eauto | apply IH; eauto].
Qed.

Lemma selector_fields_total page sel p0 :
  (exists payload, selector_fields page sel p0 = Ok payload) <->
  exists nodes, css page sel = Ok nodes /\ Forall readable (slice_to 20 nodes).
Proof.
  split.
  - intros [payload H].
    apply selector_fields_shape in H as (nodes & items & Q & C & _).
    exists nodes. split; [exact Q|].
    assert (T : exists bs, comprehension trimmed_text (slice_to 20 nodes) = Ok bs)
      by eauto.
    apply comprehension_total in T. revert T. apply Forall_impl.
    intros n. apply trimmed_text_ok.
  - intros (nodes & Q & R).
    assert (T : exists bs, comprehension trimmed_text (slice_to 20 nodes) = Ok bs).
    { apply comprehension_total. revert R. apply Forall_impl.
      intros n. apply trimmed_text_ok. }
    destruct T as [bs T]. unfold selector_fields, bind. rewrite Q, T. eauto.
Qed.

Lemma extend_total args page p0 :
  (exists payload, extend args page p0 = Ok payload) <-> extractable args page.
Proof.
  unfold extractable.
  destruct (selector args) as [[|c sel]|] eqn:S.
  - rewrite (extend_no_selector _ _ _ (or_intror S)). unfold preview_field.
    split.
    + intros [payload H]. apply bind_ok in H as (raw & T & _). right. eauto.
    + intros [(sel & nodes & S' & N & _) | (_ & raw & T)].
      * congruence.
      * rewrite T. simpl. eauto.
  - rewrite (extend_selector _ _ S) by discriminate.
    rewrite selector_fields_total. split.
    + intros (nodes & Q & R). left. exists (c :: sel), nodes.
      repeat split; auto. discriminate.
    + intros [(sel' & nodes & S' & N & Q & R) | ([S' | S'] & _)];
        try discriminate.
      injection S' as <-. eauto.
  - rewrite (extend_no_selector _ _ _ (or_introl S)). unfold preview_field.
    split.
    + intros [payload H]. apply bind_ok in H as (raw & T & _). right. eauto.
    + intros [(sel & nodes & S' & _) | (_ & raw & T)].
      * discriminate.
      * rewrite T. simpl. eauto.
Qed.

(** ** The digits of an integer *)

Lemma uint_digits d :
  forallb is_digit (lit (NilEmpty.string_of_uint d)) = true.
Proof. induction d; simpl; auto. Qed.

Lemma nzhead_not_zero d d' : Decimal.nzhead d <> Decimal.D0 d'.
Proof. induction d; simpl; try discriminate. exact IHd. Qed.

Lemma pos_to_uint_normal p : Decimal.nzhead (Pos.to_uint p) = Pos.to_uint p.
Proof.
  pose proof (DecimalPos.Unsigned.to_of (Pos.to_uint p)) as H.
  rewrite DecimalPos.Unsigned.of_to in H. simpl in H.
  unfold Decimal.unorm in H.
  destruct (Decimal.nzhead (Pos.to_uint p)) eqn:E; try congruence.
  exfalso. apply (DecimalPos.Unsigned.to_uint_nonzero p). exact H.
Qed.

Lemma pos_digits p :
  json_int (lit (NilZero.string_of_uint (Pos.to_uint p))) /\
  hd 0%N (lit (NilZero.string_of_uint (Pos.to_uint p))) <> 45%N.
Proof.
  pose proof (pos_to_uint_normal p) as H.
  pose proof (DecimalPos.Unsigned.to_uint_nonnil p) as N.
  destruct (Pos.to_uint p) as [|d|d|d|d|d|d|d|d|d|d] eqn:E;
    try (exfalso; apply N; reflexivity);
    try (exfalso; apply (nzhead_not_zero _ _ H));
    (split; [apply ji_pos; [reflexivity | discriminate | apply uint_digits]
            | discriminate]).
Qed.

(** [repr] of an integer is a JSON number. *)
Lemma dumps_int_json n : json_int (dumps_int n).
Proof.
  unfold dumps_int. destruct n as [|p|p]; simpl.
  - apply ji_zero.
  - apply pos_digits.
  - apply (ji_neg (lit (NilZero.string_of_uint (Pos.to_uint p))));
      apply pos_digits.
Qed.

Lemma digits_printable s : forallb is_digit s = true -> printable_ascii s = true.
Proof.
  unfold printable_ascii. induction s as [|c s IH]; simpl; [reflexivity|].
  intros H. apply andb_true_iff in H as [D H]. rewrite (IH H), andb_true_r.
  unfold is_digit in D. apply andb_true_iff in D as [A B].
  apply N.leb_le in A, B. apply andb_true_iff. split; apply N.leb_le; lia.
Qed.

Lemma dumps_int_printable n : printable_ascii (dumps_int n) = true.
Proof.
  assert (U : forall d, printable_ascii (lit (NilZero.string_of_uint d)) = true).
  { intros d. destruct d; try reflexivity; apply digits_printable;
      apply (uint_digits (_ d)) || apply uint_digits. }
  unfold dumps_int. destruct n as [|p|p]; simpl; try reflexivity; apply U.
Qed.

(** ** Text written with [ensure_ascii] *)

Lemma printable_app a b :
  printable_ascii (a ++ b) = printable_ascii a && printable_ascii b.
Proof. apply forallb_app. Qed.

Lemma hex_digit_printable d :
  (d < 16)%N -> ((32 <=? hex_digit d) && (hex_digit d <=? 126))%N = true.
Proof.
  intros H. unfold hex_digit. apply andb_true_iff.
  destruct (N.ltb_spec d 10); split; apply N.leb_le; lia.
Qed.

Lemma u_escape_printable n : printable_ascii (u_escape n) = true.
Proof.
  unfold u_escape, printable_ascii. simpl.
  rewrite !hex_digit_printable; auto; apply N.mod_upper_bound; discriminate.
Qed.

Lemma escape_char_printable c : printable_ascii (escape_char true c) = true.
Proof.
  unfold escape_char.
  repeat match goal with
         | |- context [(c =? ?k)%N] => destruct (N.eqb_spec c k); [reflexivity|]
         end.
  cbv zeta.
  destruct ((32 <=? c) && (c <=? 126))%N eqn:P.
  - unfold printable_ascii. simpl. rewrite P. reflexivity.
  - destruct (c <? 65536)%N.
    + apply u_escape_printable.
    + rewrite printable_app, !u_escape_printable. reflexivity.
Qed.

Lemma dumps_str_printable s : printable_ascii (dumps_str true s) = true.
Proof.
  unfold dumps_str. rewrite !printable_app. simpl. rewrite andb_true_r.
  induction s as [|c s IH]; simpl; [reflexivity|].
  rewrite printable_app, escape_char_printable, IH. reflexivity.
Qed.

Lemma join_printable sep l :
  printable_ascii sep = true ->
  Forall (fun x => printable_ascii x = true) l ->
  printable_ascii (join sep l) = true.
Proof.
  intros S H. induction H as [|x l Hx Hl IH]; [reflexivity|].
  destruct l as [|y l]; [exact Hx|].
  change (printable_ascii (x ++ sep ++ join sep (y :: l)) = true).
  rewrite !printable_app, Hx, S, IH. reflexivity.
Qed.

Lemma dumps_value_printable v : printable_ascii (dumps_value true v) = true.
Proof.
  induction v as [|b|n|s|l IH] using pyvalue_induction.
  - reflexivity.
  - destruct b; reflexivity.
  - apply dumps_int_printable.
  - apply dumps_str_printable.
  - change (printable_ascii
              (lit "[" ++ join (lit ", ") (map (dumps_value true) l) ++ lit "]")
            = true).
    rewrite !printable_app, join_printable; [reflexivity | reflexivity |].
    apply Forall_map. exact IH.
Qed.

(** With [ensure_ascii] the text of any object is printable ASCII. *)
Lemma dumps_printable obj : printable_ascii (dumps true obj) = true.
Proof.
  unfold dumps. rewrite !printable_app, join_printable; [reflexivity | reflexivity |].
  apply Forall_map, Forall_forall. intros [k v] _.
  unfold dumps_member. cbn [fst snd].
  rewrite !printable_app, dumps_str_printable, dumps_value_printable. reflexivity.
Qed.

(** ** Text written with or without [ensure_ascii] is JSON *)

Lemma escape_char_unicode c s :
  (c <= 1114111)%N -> json_chars s -> json_chars (escape_char false c ++ s).
Proof.
  intros U H. unfold escape_char.
  repeat match goal with
         | |- context [(c =? ?k)%N] =>
             destruct (N.eqb_spec c k);
             [simpl; apply jc_escape; [simpl; tauto | exact H] |]
         end.
  destruct (N.ltb_spec c 32).
  - apply u_escape_chars, H.
  - apply jc_plain; auto.
Qed.

Lemma escape_any ensure_ascii s :
  (ensure_ascii = false -> unicode s = true) ->
  json_chars (flat_map (escape_char ensure_ascii) s).
Proof.
  destruct ensure_ascii; intros U; [apply escape_ascii|].
  specialize (U eq_refl). unfold unicode in U.
  induction s as [|c s IH]; simpl; [constructor|].
  simpl in U. apply andb_true_iff in U as [C U].
  apply escape_char_unicode; [apply N.leb_le, C | apply IH, U].
Qed.

Lemma lit_unicode k : unicode (lit k) = true.
Proof.
  unfold unicode, lit. induction k as [|a k IH]; simpl; [reflexivity|].
  rewrite IH, andb_true_r. apply N.leb_le.
  pose proof (N_ascii_bounded a). lia.
Qed.

Lemma dumps_elements ensure_ascii w v l :
  json_ws w ->
  Forall (fun v => json_value (dumps_value ensure_ascii v)) (v :: l) ->
  json_elements
    (w ++ join (lit ", ") (map (dumps_value ensure_ascii) (v :: l))).
Proof.
  revert w v. induction l as [|v' l IH]; intros w v Hw Hv.
  - inversion Hv as [|? ? H _]; subst.
    change (json_elements (w ++ dumps_value ensure_ascii v)).
    rewrite <- (app_nil_r (dumps_value ensure_ascii v)).
    apply je_last; auto using ws_nil.
  - inversion Hv as [|? ? H Hrest]; subst.
    change (json_elements
              (w ++ dumps_value ensure_ascii v ++ [] ++ [44%N]
                 ++ [32%N]
                 ++ join (lit ", ") (map (dumps_value ensure_ascii) (v' :: l)))).
    apply je_more; auto using ws_nil, ws_space.
Qed.

Lemma dumps_value_json ensure_ascii v :
  (ensure_ascii = false -> unicode_value v = true) ->
  json_value (dumps_value ensure_ascii v).
Proof.
  induction v as [|b|n|s|l IH] using pyvalue_induction; intros U.
  - apply jv_null.
  - destruct b; [apply jv_true | apply jv_false].
  - apply jv_int, dumps_int_json.
  - apply jv_string, escape_any, U.
  - destruct l as [|v l].
    + apply (jv_array_empty []). constructor.
    + apply jv_array. apply (dumps_elements ensure_ascii []); [constructor|].
      apply Forall_forall. intros x Hx.
      apply (proj1 (Forall_forall _ _) IH x Hx).
      intros E. specialize (U E).
      change (forallb unicode_value (v :: l) = true) in U.
      apply (proj1 (forallb_forall _ _) U x Hx).
Qed.

Lemma dumps_member_shape_any ensure_ascii kv rest :
  dumps_member ensure_ascii kv ++ rest =
  ([34%N] ++ flat_map (escape_char ensure_ascii) (lit (fst kv)) ++ [34%N])
    ++ [] ++ [58%N] ++ [32%N] ++ dumps_value ensure_ascii (snd kv) ++ [] ++ rest.
Proof.
  unfold dumps_member, dumps_str.
  change (lit ": ") with [58; 32]%N.
  rewrite <- !app_assoc. reflexivity.
Qed.

Lemma dumps_members_any ensure_ascii w kv d :
  json_ws w ->
  Forall (fun kv => json_value (dumps_value ensure_ascii (snd kv))) (kv :: d) ->
  json_members
    (w ++ join (lit ", ") (map (dumps_member ensure_ascii) (kv :: d))).
Proof.
  assert (K : forall k, json_chars (flat_map (escape_char ensure_ascii) (lit k)))
    by (intros k; apply escape_any; intros _; apply lit_unicode).
  revert w kv. induction d as [|kv' d IH]; intros w kv Hw Hv.
  - inversion Hv as [|? ? Hkv _]; subst.
    change (json_members (w ++ dumps_member ensure_ascii kv)).
    rewrite <- (app_nil_r (dumps_member ensure_ascii kv)),
      dumps_member_shape_any.
    apply (jm_last w (flat_map (escape_char ensure_ascii) (lit (fst kv))) []
             [32%N] (dumps_value ensure_ascii (snd kv)) ([] ++ []));
      auto using ws_space, ws_nil.
  - inversion Hv as [|? ? Hkv Hrest]; subst.
    change (json_members
              (w ++ dumps_member ensure_ascii kv
                 ++ [44%N] ++ [32%N]
                 ++ join (lit ", ") (map (dumps_member ensure_ascii) (kv' :: d)))).
    rewrite dumps_member_shape_any.
    apply (jm_more w (flat_map (escape_char ensure_ascii) (lit (fst kv))) []
             [32%N] (dumps_value ensure_ascii (snd kv)) []
             ([32%N] ++ join (lit ", ")
                          (map (dumps_member ensure_ascii) (kv' :: d))));
      auto using ws_space, ws_nil.
Qed.

(** [json.dumps] writes a JSON object; without [ensure_ascii] the strings
    must be Unicode strings. *)
Lemma dumps_json ensure_ascii obj :
  (ensure_ascii = false -> unicode_dict obj = true) ->
  json_object (dumps ensure_ascii obj).
Proof.
  intros U. unfold dumps. destruct obj as [|kv d].
  - apply (jo_empty []). constructor.
  - apply jo_members. apply (dumps_members_any ensure_ascii []); [constructor|].
    apply Forall_forall. intros x Hx. apply dumps_value_json.
    intros E. specialize (U E).
    apply (proj1 (forallb_forall _ _) U x Hx).
Qed.

(** ** Reading an outcome backwards *)

(** A printed object comes from the import guard, from the [except]
    clause or from the end of the [try] body. *)
Lemma printed_object_cases w ensure_ascii obj :
  stdout (script w) = [JsonLine ensure_ascii obj] ->
  (exists e,
      import_Fetcher w = Raise e /\ ensure_ascii = true /\
      obj = import_failed_payload e /\ exit_code (script w) = 2%Z)
  \/
  (exists F args e,
      import_Fetcher w = Ok F /\ parse_args w = Parsed args /\
      try_body w F args = Raise e /\ ensure_ascii = true /\
      obj = error_payload e args /\ exit_code (script w) = 1%Z)
  \/
  (exists F args page,
      import_Fetcher w = Ok F /\ parse_args w = Parsed args /\
      F (timeout args) (url args) = Ok page /\
      extend args page (initial_payload args (extract_title page)) = Ok obj /\
      ensure_ascii = false /\ exit_code (script w) = 0%Z).
Proof.
  destruct (invocation_cases w) as [U | [U | [U | [U | U]]]].
  - destruct U as [e H]. rewrite (run_import_failure H). simpl.
    intros E. injection E as <- <-. left. exists e. repeat split; auto.
  - destruct U as (F & m & I & P). rewrite (run_usage_error I P).
    discriminate.
  - destruct U as (F & I & P). rewrite (run_help I P). discriminate.
  - destruct U as (F & args & payload & I & P & H & W).
    rewrite (run_success I P H W). simpl. intros E. injection E as <- <-.
    apply fetch_and_extract_shape in H as (page & G & X).
    right. right. exists F, args, page. repeat split; auto.
  - destruct U as (F & args & e & I & P & H).
    apply (try_body_raises w F args e) in H.
    rewrite (run_raised I P H). simpl. intros E. injection E as <- <-.
    right. left. exists F, args, e. repeat split; auto.
Qed.

Lemma extend_cases args page p0 payload :
  extend args page p0 = Ok payload ->
  (exists sel nodes items,
      selector args = Some sel /\ sel <> [] /\ css page sel = Ok nodes /\
      comprehension trimmed_text (slice_to 20 nodes) = Ok items /\
      payload = dict_set "items" (PyList items)
                  (dict_set "count" (PyInt (len nodes))
                     (dict_set "selector" (PyStr sel) p0)))
  \/
  (exists raw,
      (selector args = None \/ selector args = Some []) /\
      page_text page = Ok raw /\
      payload = dict_set "text_preview"
                  (PyStr (slice_to 1000 (strip (or_empty raw)))) p0).
Proof.
  intros H. destruct (selector args) as [[|c sel]|] eqn:S.
  - rewrite (extend_no_selector _ _ _ (or_intror S)) in H.
    apply preview_field_shape in H as (raw & T & ->). right. eauto.
  - rewrite (extend_selector _ _ S) in H by discriminate.
    apply selector_fields_shape in H as (nodes & items & Q & C & ->).
    left. exists (c :: sel), nodes, items. repeat split; auto. discriminate.
  - rewrite (extend_no_selector _ _ _ (or_introl S)) in H.
    apply preview_field_shape in H as (raw & T & ->). right. eauto.
Qed.

(** ** When a run succeeds *)

(** X1.  Once the arguments are parsed, the exit status is 0 exactly when
    the fetch returns a page, the page is [extractable] and the [print]
    of the result raises nothing: a failing title lookup and unreadable
    matches after the twentieth do not matter. *)
Theorem run_succeeds_iff (w : World) (F : Fetcher) (args : Namespace) :
  import_Fetcher w = Ok F ->
  parse_args w = Parsed args ->
  (exit_code (script w) = 0%Z <->
   (exists page,
       F (timeout args) (url args) = Ok page /\ extractable args page) /\
   result_is_printed w F args).
Proof.
  intros I P. split.
  - intros X. destruct (exit_zero_success I P X) as (payload & E & W).
    split.
    + apply fetch_and_extract_shape in E as (page & G & E).
      exists page. split; [exact G|].
      apply (extend_total args page (initial_payload args (extract_title page))).
      eauto.
    + intros payload' E'. congruence.
  - intros [(page & G & E) W].
    apply (extend_total args page (initial_payload args (extract_title page)))
      in E as [payload E].
    rewrite <- (fetched_page G) in E.
    rewrite (run_success I P E (W _ E)). reflexivity.
Qed.

Lemma run_succeeds_iff_witness :
  import_Fetcher (sample_world sparse_page (Some (lit "a")))
  = Ok (serve sparse_page) /\
  parse_args (sample_world sparse_page (Some (lit "a")))
  = Parsed (sample_args (Some (lit "a"))) /\
  (exit_code (script (sample_world sparse_page (Some (lit "a")))) = 0%Z <->
   (exists page,
       serve sparse_page (timeout (sample_args (Some (lit "a"))))
             (url (sample_args (Some (lit "a")))) = Ok page /\
       extractable (sample_args (Some (lit "a"))) page) /\
   result_is_printed (sample_world sparse_page (Some (lit "a")))
     (serve sparse_page) (sample_args (Some (lit "a")))).
Proof.
  do 2 (split; [reflexivity|]).
  exact (run_succeeds_iff (sample_world sparse_page (Some (lit "a")))
           (serve sparse_page) (sample_args (Some (lit "a"))) eq_refl eq_refl).
Defined.

(** X2.  A selector that matches nothing is no error: when the result is
    printed, the run succeeds with [count] 0 and an empty [items]. *)
Theorem no_match_succeeds (w : World) (F : Fetcher) (args : Namespace)
        (page : Page) (sel : pystr) :
  import_Fetcher w = Ok F ->
  parse_args w = Parsed args ->
  selector args = Some sel ->
  sel <> [] ->
  F (timeout args) (url args) = Ok page ->
  css page sel = Ok [] ->
  result_is_printed w F args ->
  exists payload,
    stdout (script w) = [JsonLine false payload] /\
    exit_code (script w) = 0%Z /\
    dict_get "selector" payload = Some (PyStr sel) /\
    dict_get "count" payload = Some (PyInt 0) /\
    dict_get "items" payload = Some (PyList []).
Proof.
  intros I P S N G Q W.
  assert (E : fetch_and_extract F args
              = Ok (dict_set "items" (PyList [])
                      (dict_set "count" (PyInt 0)
                         (dict_set "selector" (PyStr sel)
                            (initial_payload args (extract_title page)))))).
  { rewrite (fetched_page G), (extend_selector _ _ S N).
    unfold selector_fields. rewrite Q. reflexivity. }
  eexists. rewrite (run_success I P E (W _ E)). repeat split; reflexivity.
Qed.

Lemma no_match_succeeds_witness :
  import_Fetcher (sample_world sample_page (Some (lit "h1")))
  = Ok (serve sample_page) /\
  parse_args (sample_world sample_page (Some (lit "h1")))
  = Parsed (sample_args (Some (lit "h1"))) /\
  selector (sample_args (Some (lit "h1"))) = Some (lit "h1") /\
  lit "h1" <> [] /\
  serve sample_page (timeout (sample_args (Some (lit "h1"))))
        (url (sample_args (Some (lit "h1")))) = Ok sample_page /\
  css sample_page (lit "h1") = Ok [] /\
  result_is_printed (sample_world sample_page (Some (lit "h1")))
    (serve sample_page) (sample_args (Some (lit "h1"))) /\
  exists payload,
    stdout (script (sample_world sample_page (Some (lit "h1"))))
    = [JsonLine false payload] /\
    exit_code (script (sample_world sample_page (Some (lit "h1")))) = 0%Z /\
    dict_get "selector" payload = Some (PyStr (lit "h1")) /\
    dict_get "count" payload = Some (PyInt 0) /\
    dict_get "items" payload = Some (PyList []).
Proof.
  assert (N : lit "h1" <> []) by discriminate.
  assert (W : result_is_printed (sample_world sample_page (Some (lit "h1")))
                (serve sample_page) (sample_args (Some (lit "h1")))).
  { intros payload H. vm_compute in H. injection H as <-. reflexivity. }
  do 3 (split; [reflexivity|]). split; [exact N|].
  do 2 (split; [reflexivity|]). split; [exact W|].
  exact (no_match_succeeds (sample_world sample_page (Some (lit "h1")))
           (serve sample_page) (sample_args (Some (lit "h1"))) sample_page
           (lit "h1") eq_refl eq_refl eq_refl N eq_refl eq_refl W).
Defined.

(** ** The printed object *)

(** X3.  A printed object has one of three shapes, told apart by the exit
    status: on success ["ok": true] with the keys [ok, url, title] followed
    by [selector, count, items] or by [text_preview]; with status 1 the
    keys [ok, error, url]; with status 2 the keys [ok, error]; in the last
    two ["ok"] is false.  Only the success object is written without
    [ensure_ascii]. *)
Theorem printed_object_schema (w : World) (ensure_ascii : bool) (obj : dict) :
  stdout (script w) = [JsonLine ensure_ascii obj] ->
  (exit_code (script w) = 0%Z /\ ensure_ascii = false /\
   dict_get "ok" obj = Some (PyBool true) /\
   (keys obj = ["ok"; "url"; "title"; "selector"; "count"; "items"] \/
    keys obj = ["ok"; "url"; "title"; "text_preview"]))
  \/
  (exit_code (script w) = 1%Z /\ ensure_ascii = true /\
   dict_get "ok" obj = Some (PyBool false) /\
   keys obj = ["ok"; "error"; "url"])
  \/
  (exit_code (script w) = 2%Z /\ ensure_ascii = true /\
   dict_get "ok" obj = Some (PyBool false) /\
   keys obj = ["ok"; "error"]).
Proof.
  intros H.
  destruct (printed_object_cases _ _ _ H)
    as [(e & I & -> & -> & X)
       | [(F & args & e & I & P & E & -> & -> & X)
         | (F & args & page & I & P & G & E & -> & X)]].
  - right. right. repeat split; auto.
  - right. left. repeat split; auto.
  - left. split; [exact X|]. split; [reflexivity|].
    apply extend_cases in E
      as [(sel & nodes & items & _ & _ & _ & _ & ->) | (raw & _ & _ & ->)].
    + split; [reflexivity|]. left. reflexivity.
    + split; [reflexivity|]. right. reflexivity.
Qed.

Lemma printed_object_schema_witness :
  stdout (script refused_world)
  = [JsonLine true (error_payload (Exception (lit "connection refused"))
                      (sample_args None))] /\
  ((exit_code (script refused_world) = 0%Z /\ true = false /\
    dict_get "ok" (error_payload (Exception (lit "connection refused"))
                     (sample_args None)) = Some (PyBool true) /\
    (keys (error_payload (Exception (lit "connection refused"))
             (sample_args None))
     = ["ok"; "url"; "title"; "selector"; "count"; "items"] \/
     keys (error_payload (Exception (lit "connection refused"))
             (sample_args None))
     = ["ok"; "url"; "title"; "text_preview"]))
   \/
   (exit_code (script refused_world) = 1%Z /\ true = true /\
    dict_get "ok" (error_payload (Exception (lit "connection refused"))
                     (sample_args None)) = Some (PyBool false) /\
    keys (error_payload (Exception (lit "connection refused"))
            (sample_args None)) = ["ok"; "error"; "url"])
   \/
   (exit_code (script refused_world) = 2%Z /\ true = true /\
    dict_get "ok" (error_payload (Exception (lit "connection refused"))
                     (sample_args None)) = Some (PyBool false) /\
    keys (error_payload (Exception (lit "connection refused"))
            (sample_args None)) = ["ok"; "error"])).
Proof.
  split; [reflexivity|].
  exact (printed_object_schema refused_world true _ eq_refl).
Defined.

(** X4.  The script and its argument parser write at most once to
    standard output (one JSON line or the help message), also when the
    [print] of the result raises, and they write nothing there exactly
    on a usage error. *)
Theorem output_volume (w : World) :
  (length (stdout (script w)) <= 1)%nat /\
  (stdout (script w) = [] <-> usage_error w).
Proof.
  destruct (invocation_cases w)
    as [U | [U | [U | [U | U]]]]; pose proof U as U';
    unfold capability_unavailable, usage_error, help_requested, succeeded,
      raised in *.
  - destruct U' as [e H]. rewrite (run_import_failure H).
    simpl; repeat split; intros; try discriminate; try lia; auto;
      break_cases; congruence.
  - destruct U' as (F & m & I & P). rewrite (run_usage_error I P).
    simpl; repeat split; intros; try discriminate; try lia; auto.
  - destruct U' as (F & I & P). rewrite (run_help I P).
    simpl; repeat split; intros; try discriminate; try lia; auto;
      break_cases; congruence.
  - destruct U' as (F & args & payload & I & P & H & W).
    rewrite (run_success I P H W).
    simpl; repeat split; intros; try discriminate; try lia; auto;
      break_cases; congruence.
  - destruct U' as (F & args & e & I & P & H).
    apply (try_body_raises w F args e) in H.
    rewrite (run_raised I P H).
    simpl; repeat split; intros; try discriminate; try lia; auto;
      break_cases; congruence.
Qed.

(** ** The title of a successful run *)

Lemma title_lookup_first page n rest :
  css page (lit "title") = Ok (n :: rest) ->
  title_lookup page = (t <- node_text n ;; Ok (PyStr t)).
Proof.
  intros Q. unfold title_lookup. rewrite Q. simpl bind.
  unfold truthy_int, len. simpl length.
  destruct (Z.eqb_spec (Z.of_nat (S (length rest))) 0); [lia|]. reflexivity.
Qed.

(** X5.  In a successful run [title] is the text of the first node that
    the query [title] returns, as it is (not trimmed, and whatever the
    other nodes are); it is null when the query returns no node and when
    the lookup raises. *)
Theorem title_value (w : World) (F : Fetcher) (args : Namespace)
        (page : Page) :
  import_Fetcher w = Ok F ->
  parse_args w = Parsed args ->
  F (timeout args) (url args) = Ok page ->
  exit_code (script w) = 0%Z ->
  exists payload title,
    stdout (script w) = [JsonLine false payload] /\
    dict_get "title" payload = Some title /\
    (forall n rest t,
        css page (lit "title") = Ok (n :: rest) -> node_text n = Ok t ->
        title = PyStr t) /\
    (css page (lit "title") = Ok [] -> title = PyNone) /\
    (forall e, title_lookup page = Raise e -> title = PyNone).
Proof.
  intros I P G X.
  destruct (exit_zero_success I P X) as (payload & E & W).
  exists payload, (extract_title page).
  rewrite (run_success I P E W). split; [reflexivity|].
  rewrite (fetched_page G) in E.
  split.
  { transitivity (dict_get "title" (initial_payload args (extract_title page)));
      [revert E; apply extend_keeps; discriminate | reflexivity]. }
  split; [|split].
  - intros n rest t Q T. unfold extract_title.
    rewrite (title_lookup_first _ _ _ Q), T. reflexivity.
  - intros Q. unfold extract_title, title_lookup. rewrite Q. reflexivity.
  - intros e. apply title_failure_gives_none.
Qed.

Lemma title_value_witness :
  import_Fetcher (sample_world sample_page None) = Ok (serve sample_page) /\
  parse_args (sample_world sample_page None) = Parsed (sample_args None) /\
  serve sample_page (timeout (sample_args None)) (url (sample_args None))
  = Ok sample_page /\
  exit_code (script (sample_world sample_page None)) = 0%Z /\
  exists payload title,
    stdout (script (sample_world sample_page None)) = [JsonLine false payload] /\
    dict_get "title" payload = Some title /\
    (forall n rest t,
        css sample_page (lit "title") = Ok (n :: rest) -> node_text n = Ok t ->
        title = PyStr t) /\
    (css sample_page (lit "title") = Ok [] -> title = PyNone) /\
    (forall e, title_lookup sample_page = Raise e -> title = PyNone).
Proof.
  do 4 (split; [reflexivity|]).
  exact (title_value (sample_world sample_page None) (serve sample_page)
           (sample_args None) sample_page eq_refl eq_refl eq_refl eq_refl).
Defined.

(** ** The items *)

(** X6.  Whenever the printed object has [items], these are at most 20
    strings and none of them starts or ends with whitespace. *)
Theorem items_are_trimmed (w : World) (ensure_ascii : bool) (obj : dict)
        (items : list pyvalue) :
  stdout (script w) = [JsonLine ensure_ascii obj] ->
  dict_get "items" obj = Some (PyList items) ->
  (length items <= 20)%nat /\
  Forall (fun it => exists s,
              it = PyStr s /\ starts_with_space s = false /\
              ends_with_space s = false) items.
Proof.
  intros H D.
  destruct (printed_object_cases _ _ _ H)
    as [(e & _ & _ & -> & _)
       | [(F & args & e & _ & _ & _ & _ & -> & _)
         | (F & args & page & _ & _ & _ & E & _ & _)]];
    try discriminate D.
  apply extend_cases in E
    as [(sel & nodes & items' & _ & _ & _ & C & ->) | (raw & _ & _ & ->)];
    [|discriminate D].
  rewrite dict_get_set_same in D. injection D as <-.
  apply comprehension_ok in C. split.
  - rewrite <- (Forall2_same_length _ _ _ C). apply slice_length.
  - clear H. induction C as [|n it ns its Hn _ IH]; [constructor|].
    constructor; [|exact IH].
    unfold trimmed_text in Hn.
    destruct (node_text n) as [t|e]; simpl in Hn; [|discriminate].
    injection Hn as <-. exists (strip t).
    auto using strip_no_leading_space, strip_no_trailing_space.
Qed.

Lemma items_are_trimmed_witness :
  stdout (script (sample_world sparse_page (Some (lit "a"))))
  = [JsonLine false
       (dict_set "items" (PyList (repeat (PyStr (lit "link")) 20))
          (dict_set "count" (PyInt 21)
             (dict_set "selector" (PyStr (lit "a"))
                (initial_payload (sample_args (Some (lit "a"))) PyNone))))] /\
  dict_get "items"
    (dict_set "items" (PyList (repeat (PyStr (lit "link")) 20))
       (dict_set "count" (PyInt 21)
          (dict_set "selector" (PyStr (lit "a"))
             (initial_payload (sample_args (Some (lit "a"))) PyNone))))
  = Some (PyList (repeat (PyStr (lit "link")) 20)) /\
  (length (repeat (PyStr (lit "link")) 20) <= 20)%nat /\
  Forall (fun it => exists s,
              it = PyStr s /\ starts_with_space s = false /\
              ends_with_space s = false)
         (repeat (PyStr (lit "link")) 20).
Proof.
  do 2 (split; [reflexivity|]).
  exact (items_are_trimmed (sample_world sparse_page (Some (lit "a"))) false
           _ _ eq_refl eq_refl).
Defined.

(** ** The text preview as an excerpt *)

Lemma printed_preview w ensure_ascii obj preview :
  stdout (script w) = [JsonLine ensure_ascii obj] ->
  dict_get "text_preview" obj = Some (PyStr preview) ->
  exists F args page raw,
    import_Fetcher w = Ok F /\ parse_args w = Parsed args /\
    F (timeout args) (url args) = Ok page /\ page_text page = Ok raw /\
    preview = slice_to 1000 (strip (or_empty raw)).
Proof.
  intros H D.
  destruct (printed_object_cases _ _ _ H)
    as [(e & _ & _ & -> & _)
       | [(F & args & e & _ & _ & _ & _ & -> & _)
         | (F & args & page & I & P & G & E & _ & _)]];
    try discriminate D.
  apply extend_cases in E
    as [(sel & nodes & items' & _ & _ & _ & C & ->) | (raw & _ & T & ->)];
    [discriminate D|].
  rewrite dict_get_set_same in D. injection D as <-.
  exists F, args, page, raw. auto.
Qed.

(** X7.  Whenever the printed object has [text_preview], the preview is a
    piece of the text of the fetched document: only whitespace comes
    before it, and only whitespace comes after it when the trimmed text has
    at most 1000 characters. *)
Theorem preview_is_excerpt (w : World) (ensure_ascii : bool) (obj : dict)
        (preview : pystr) :
  stdout (script w) = [JsonLine ensure_ascii obj] ->
  dict_get "text_preview" obj = Some (PyStr preview) ->
  exists F args page raw lead rest,
    import_Fetcher w = Ok F /\ parse_args w = Parsed args /\
    F (timeout args) (url args) = Ok page /\ page_text page = Ok raw /\
    or_empty raw = lead ++ preview ++ rest /\
    all_space lead = true /\
    ((length (strip (or_empty raw)) <= 1000)%nat -> all_space rest = true).
Proof.
  intros H D.
  destruct (printed_preview _ _ _ _ H D)
    as (F & args & page & raw & I & P & G & T & ->).
  destruct (strip_split (or_empty raw)) as (lead & trail & E & A & A').
  exists F, args, page, raw, lead,
    (skipn 1000 (strip (or_empty raw)) ++ trail).
  repeat split; auto.
  - unfold slice_to. rewrite (app_assoc (firstn _ _)), firstn_skipn. exact E.
  - intros L. rewrite (skipn_all2 _ L). exact A'.
Qed.

Lemma preview_is_excerpt_witness :
  stdout (script (sample_world sample_page None))
  = [JsonLine false
       (dict_set "text_preview" (PyStr (lit "Example Domain"))
          (initial_payload (sample_args None) (PyStr (lit "Example Domain"))))] /\
  dict_get "text_preview"
    (dict_set "text_preview" (PyStr (lit "Example Domain"))
       (initial_payload (sample_args None) (PyStr (lit "Example Domain"))))
  = Some (PyStr (lit "Example Domain")) /\
  exists F args page raw lead rest,
    import_Fetcher (sample_world sample_page None) = Ok F /\
    parse_args (sample_world sample_page None) = Parsed args /\
    F (timeout args) (url args) = Ok page /\ page_text page = Ok raw /\
    or_empty raw = lead ++ lit "Example Domain" ++ rest /\
    all_space lead = true /\
    ((length (strip (or_empty raw)) <= 1000)%nat -> all_space rest = true).
Proof.
  do 2 (split; [reflexivity|]).
  exact (preview_is_excerpt (sample_world sample_page None) false _ _
           eq_refl eq_refl).
Defined.

(** X8.  The preview is the empty string exactly when the text of the
    document is [None], empty or made of whitespace only. *)
Theorem preview_empty_iff_blank (w : World) (ensure_ascii : bool) (obj : dict)
        (preview : pystr) :
  stdout (script w) = [JsonLine ensure_ascii obj] ->
  dict_get "text_preview" obj = Some (PyStr preview) ->
  exists F args page raw,
    import_Fetcher w = Ok F /\ parse_args w = Parsed args /\
    F (timeout args) (url args) = Ok page /\ page_text page = Ok raw /\
    (preview = [] <->
     raw = None \/ exists s, raw = Some s /\ all_space s = true).
Proof.
  intros H D.
  destruct (printed_preview _ _ _ _ H D)
    as (F & args & page & raw & I & P & G & T & ->).
  exists F, args, page, raw. repeat split; auto.
  - intros E. apply or_empty_all_space, strip_empty_iff.
    apply (f_equal (@length N)) in E. rewrite slice_length_min in E.
    simpl in E. destruct (strip (or_empty raw)); [reflexivity|].
    simpl in E. lia.
  - intros B. apply or_empty_all_space, strip_empty_iff in B.
    rewrite B. reflexivity.
Qed.

Lemma preview_empty_iff_blank_witness :
  stdout (script (sample_world sparse_page None))
  = [JsonLine false
       (dict_set "text_preview" (PyStr [])
          (initial_payload (sample_args None) PyNone))] /\
  dict_get "text_preview"
    (dict_set "text_preview" (PyStr [])
       (initial_payload (sample_args None) PyNone))
  = Some (PyStr []) /\
  exists F args page raw,
    import_Fetcher (sample_world sparse_page None) = Ok F /\
    parse_args (sample_world sparse_page None) = Parsed args /\
    F (timeout args) (url args) = Ok page /\ page_text page = Ok raw /\
    (([] : pystr) = [] <->
     raw = None \/ exists s, raw = Some s /\ all_space s = true).
Proof.
  do 2 (split; [reflexivity|]).
  exact (preview_empty_iff_blank (sample_world sparse_page None) false _ _
           eq_refl eq_refl).
Defined.

(** ** The printed text *)

(** X9.  A line printed with a non-zero exit status is written with
    [ensure_ascii]: it consists of printable ASCII characters only,
    whatever the exception message and the URL hold. *)
Theorem failure_line_is_ascii (w : World) (ensure_ascii : bool) (obj : dict) :
  stdout (script w) = [JsonLine ensure_ascii obj] ->
  exit_code (script w) <> 0%Z ->
  ensure_ascii = true /\ printable_ascii (dumps ensure_ascii obj) = true.
Proof.
  intros H X.
  destruct (printed_object_cases _ _ _ H)
    as [(e & _ & -> & _ & _)
       | [(F & args & e & _ & _ & _ & -> & _ & _)
         | (F & args & page & _ & _ & _ & _ & _ & X')]];
    try (split; [reflexivity | apply dumps_printable]).
  contradiction.
Qed.

Lemma failure_line_is_ascii_witness :
  stdout (script refused_world)
  = [JsonLine true (error_payload (Exception (lit "connection refused"))
                      (sample_args None))] /\
  exit_code (script refused_world) <> 0%Z /\
  true = true /\
  printable_ascii
    (dumps true (error_payload (Exception (lit "connection refused"))
                   (sample_args None))) = true.
Proof.
  assert (X : exit_code (script refused_world) <> 0%Z) by discriminate.
  split; [reflexivity|]. split; [exact X|].
  exact (failure_line_is_ascii refused_world true _ eq_refl X).
Defined.

(** X10.  Every line that the script prints for an object is the text of a
    JSON object, on success as on failure.  The success line is written
    without [ensure_ascii]; there the strings of the object must be Unicode
    strings (code points up to 10FFFF), as those of Python are. *)
Theorem printed_line_is_json (w : World) (ensure_ascii : bool) (obj : dict) :
  stdout (script w) = [JsonLine ensure_ascii obj] ->
  (exit_code (script w) = 0%Z -> unicode_dict obj = true) ->
  json_object (dumps ensure_ascii obj).
Proof.
  intros H U.
  destruct (printed_object_cases _ _ _ H)
    as [(e & _ & -> & _ & _)
       | [(F & args & e & _ & _ & _ & -> & _ & _)
         | (F & args & page & _ & _ & _ & _ & _ & X)]].
  - apply dumps_json. discriminate.
  - apply dumps_json. discriminate.
  - apply dumps_json. intros _. exact (U X).
Qed.

Lemma printed_line_is_json_witness :
  stdout (script (sample_world sample_page (Some (lit "p"))))
  = [JsonLine false
       (dict_set "items"
          (PyList (PyStr (lit "first") :: repeat (PyStr (lit "more")) 19))
          (dict_set "count" (PyInt 22)
             (dict_set "selector" (PyStr (lit "p"))
                (initial_payload (sample_args (Some (lit "p")))
                   (PyStr (lit "Example Domain"))))))] /\
  (exit_code (script (sample_world sample_page (Some (lit "p")))) = 0%Z ->
   unicode_dict
     (dict_set "items"
        (PyList (PyStr (lit "first") :: repeat (PyStr (lit "more")) 19))
        (dict_set "count" (PyInt 22)
           (dict_set "selector" (PyStr (lit "p"))
              (initial_payload (sample_args (Some (lit "p")))
                 (PyStr (lit "Example Domain")))))) = true) /\
  json_object
    (dumps false
       (dict_set "items"
          (PyList (PyStr (lit "first") :: repeat (PyStr (lit "more")) 19))
          (dict_set "count" (PyInt 22)
             (dict_set "selector" (PyStr (lit "p"))
                (initial_payload (sample_args (Some (lit "p")))
                   (PyStr (lit "Example Domain"))))))).
Proof.
  split; [reflexivity|]. split; [intros _; reflexivity|].
  exact (printed_line_is_json (sample_world sample_page (Some (lit "p"))) false
           _ eq_refl (fun _ => eq_refl)).
Defined.

(** ** What a run does not look at *)

Lemma extract_title_query page page' :
  css page (lit "title") = css page' (lit "title") ->
  extract_title page = extract_title page'.
Proof. intros Q. unfold extract_title, title_lookup. rewrite Q. reflexivity. Qed.

Lemma same_payload_same_outcome w w' F F' args :
  import_Fetcher w = Ok F -> import_Fetcher w' = Ok F' ->
  parse_args w = Parsed args -> parse_args w' = Parsed args ->
  print w = print w' -> library_log w = library_log w' ->
  fetch_and_extract F args = fetch_and_extract F' args ->
  script w = script w'.
Proof.
  intros I I' P P' W L E. unfold script, main, try_body.
  rewrite I, I', P, P', W, L, E. reflexivity.
Qed.

(** X11.  With a non-empty selector the text of the document is never
    read: of two invocations that differ in the fetched document only,
    the query of the title and the query of the selector returning the
    same on both documents, the runs are the same, whatever the text
    accessors do. *)
Theorem selector_run_ignores_text (w w' : World) (F F' : Fetcher)
        (args : Namespace) (page page' : Page) (sel : pystr) :
  import_Fetcher w = Ok F -> import_Fetcher w' = Ok F' ->
  parse_args w = Parsed args -> parse_args w' = Parsed args ->
  print w = print w' -> library_log w = library_log w' ->
  selector args = Some sel -> sel <> [] ->
  F (timeout args) (url args) = Ok page ->
  F' (timeout args) (url args) = Ok page' ->
  css page (lit "title") = css page' (lit "title") ->
  css page sel = css page' sel ->
  script w = script w'.
Proof.
  intros I I' P P' W L S N G G' T Q.
  apply (same_payload_same_outcome w w' F F' args I I' P P' W L).
  rewrite (fetched_page G), (fetched_page G').
  rewrite !(extend_selector _ _ S N), (extract_title_query _ _ T).
  unfold selector_fields. rewrite Q. reflexivity.
Qed.

Lemma selector_run_ignores_text_witness :
  import_Fetcher (sample_world sample_page (Some (lit "p")))
  = Ok (serve sample_page) /\
  import_Fetcher (sample_world (without_text sample_page) (Some (lit "p")))
  = Ok (serve (without_text sample_page)) /\
  parse_args (sample_world sample_page (Some (lit "p")))
  = Parsed (sample_args (Some (lit "p"))) /\
  parse_args (sample_world (without_text sample_page) (Some (lit "p")))
  = Parsed (sample_args (Some (lit "p"))) /\
  print (sample_world sample_page (Some (lit "p")))
  = print (sample_world (without_text sample_page) (Some (lit "p"))) /\
  library_log (sample_world sample_page (Some (lit "p")))
  = library_log (sample_world (without_text sample_page) (Some (lit "p"))) /\
  selector (sample_args (Some (lit "p"))) = Some (lit "p") /\
  lit "p" <> [] /\
  serve sample_page (timeout (sample_args (Some (lit "p"))))
        (url (sample_args (Some (lit "p")))) = Ok sample_page /\
  serve (without_text sample_page) (timeout (sample_args (Some (lit "p"))))
        (url (sample_args (Some (lit "p")))) = Ok (without_text sample_page) /\
  css sample_page (lit "title") = css (without_text sample_page) (lit "title") /\
  css sample_page (lit "p") = css (without_text sample_page) (lit "p") /\
  script (sample_world sample_page (Some (lit "p")))
  = script (sample_world (without_text sample_page) (Some (lit "p"))).
Proof.
  assert (N : lit "p" <> []) by discriminate.
  do 7 (split; [reflexivity|]). split; [exact N|].
  do 4 (split; [reflexivity|]).
  exact (selector_run_ignores_text
           (sample_world sample_page (Some (lit "p")))
           (sample_world (without_text sample_page) (Some (lit "p")))
           (serve sample_page) (serve (without_text sample_page))
           (sample_args (Some (lit "p"))) sample_page (without_text sample_page)
           (lit "p") eq_refl eq_refl eq_refl eq_refl eq_refl eq_refl eq_refl N
           eq_refl eq_refl eq_refl eq_refl).
Defined.

(** X12.  Without a selector, or with an empty one, the only query made
    on the document is that of the title: of two invocations that differ
    in the fetched document only, the two documents having the same
    result for that query and the same text, the runs are the same. *)
Theorem preview_run_queries_title_only (w w' : World) (F F' : Fetcher)
        (args : Namespace) (page page' : Page) :
  import_Fetcher w = Ok F -> import_Fetcher w' = Ok F' ->
  parse_args w = Parsed args -> parse_args w' = Parsed args ->
  print w = print w' -> library_log w = library_log w' ->
  selector args = None \/ selector args = Some [] ->
  F (timeout args) (url args) = Ok page ->
  F' (timeout args) (url args) = Ok page' ->
  css page (lit "title") = css page' (lit "title") ->
  page_text page = page_text page' ->
  script w = script w'.
Proof.
  intros I I' P P' W L S G G' T Q.
  apply (same_payload_same_outcome w w' F F' args I I' P P' W L).
  rewrite (fetched_page G), (fetched_page G').
  rewrite !(extend_no_selector _ _ _ S), (extract_title_query _ _ T).
  unfold preview_field. rewrite Q. reflexivity.
Qed.

Lemma preview_run_queries_title_only_witness :
  import_Fetcher (sample_world sample_page (Some [])) = Ok (serve sample_page) /\
  import_Fetcher (sample_world (title_only sample_page) (Some []))
  = Ok (serve (title_only sample_page)) /\
  parse_args (sample_world sample_page (Some [])) = Parsed (sample_args (Some [])) /\
  parse_args (sample_world (title_only sample_page) (Some []))
  = Parsed (sample_args (Some [])) /\
  print (sample_world sample_page (Some []))
  = print (sample_world (title_only sample_page) (Some [])) /\
  library_log (sample_world sample_page (Some []))
  = library_log (sample_world (title_only sample_page) (Some [])) /\
  (selector (sample_args (Some [])) = None \/
   selector (sample_args (Some [])) = Some []) /\
  serve sample_page (timeout (sample_args (Some []))) (url (sample_args (Some [])))
  = Ok sample_page /\
  serve (title_only sample_page) (timeout (sample_args (Some [])))
        (url (sample_args (Some []))) = Ok (title_only sample_page) /\
  css sample_page (lit "title") = css (title_only sample_page) (lit "title") /\
  page_text sample_page = page_text (title_only sample_page) /\
  script (sample_world sample_page (Some []))
  = script (sample_world (title_only sample_page) (Some [])).
Proof.
  do 6 (split; [reflexivity|]). split; [right; reflexivity|].
  do 4 (split; [reflexivity|]).
  exact (preview_run_queries_title_only
           (sample_world sample_page (Some []))
           (sample_world (title_only sample_page) (Some []))
           (serve sample_page) (serve (title_only sample_page))
           (sample_args (Some [])) sample_page (title_only sample_page)
           eq_refl eq_refl eq_refl eq_refl eq_refl eq_refl (or_intror eq_refl)
           eq_refl eq_refl eq_refl eq_refl).
Defined.

(** ** Where a reported error comes from *)

(** X13.  A report with exit status 1 always names an exception that left
    the fetch, the selector query, the text of the first unreadable match
    among the first 20 or the text accessor, or else the exception that
    the [print] of the result raised: [error] is [str(e)] of such an
    exception, never one of the title lookup. *)
Theorem reported_error_origin (w : World) (ensure_ascii : bool) (obj : dict) :
  stdout (script w) = [JsonLine ensure_ascii obj] ->
  exit_code (script w) = 1%Z ->
  exists F args e,
    import_Fetcher w = Ok F /\ parse_args w = Parsed args /\
    (escapes F args e \/
     exists payload,
       fetch_and_extract F args = Ok payload /\
       print w (JsonLine false payload) = Raise e) /\
    dict_get "error" obj = Some (PyStr (str e)).
Proof.
  intros H X.
  destruct (printed_object_cases _ _ _ H)
    as [(e & _ & _ & _ & X')
       | [(F & args & e & I & P & E & _ & -> & _)
         | (F & args & page & _ & _ & _ & _ & _ & X')]];
    try (rewrite X in X'; discriminate X').
  exists F, args, e. do 2 (split; [assumption|]). split; [|reflexivity].
  apply try_body_raises in E as [E | E]; [left | right; exact E].
  apply fetch_and_extract_raises, E.
Qed.

Lemma reported_error_origin_witness :
  stdout (script (sample_world surrogate_page None))
  = [JsonLine true
       (error_payload
          (Exception (lit "'utf-8' codec can't encode character: surrogates not allowed"))
          (sample_args None))] /\
  exit_code (script (sample_world surrogate_page None)) = 1%Z /\
  exists F args e,
    import_Fetcher (sample_world surrogate_page None) = Ok F /\
    parse_args (sample_world surrogate_page None) = Parsed args /\
    (escapes F args e \/
     exists payload,
       fetch_and_extract F args = Ok payload /\
       print (sample_world surrogate_page None) (JsonLine false payload)
       = Raise e) /\
    dict_get "error"
      (error_payload
         (Exception (lit "'utf-8' codec can't encode character: surrogates not allowed"))
         (sample_args None))
    = Some (PyStr (str e)).
Proof.
  do 2 (split; [reflexivity|]).
  exact (reported_error_origin (sample_world surrogate_page None)
           true _ eq_refl eq_refl).
Defined.

(** ** When the result cannot be printed *)

(** X14.  When the fetch and the extraction return a payload and the
    [print] of line 44 raises [e], the payload does not reach standard
    output: the only line is the error object with [str(e)] and the
    requested URL, it is the text of a JSON object in printable ASCII,
    and the exit status is 1. *)
Theorem print_failure_reported (w : World) (F : Fetcher) (args : Namespace)
        (payload : dict) (e : exn) :
  import_Fetcher w = Ok F ->
  parse_args w = Parsed args ->
  fetch_and_extract F args = Ok payload ->
  print w (JsonLine false payload) = Raise e ->
  exists obj,
    stdout (script w) = [JsonLine true obj] /\
    obj = [("ok", PyBool false); ("error", PyStr (str e));
           ("url", PyStr (url args))] /\
    obj <> payload /\
    json_object (dumps true obj) /\
    printable_ascii (dumps true obj) = true /\
    exit_code (script w) = 1%Z.
Proof.
  intros I P H W. exists (error_payload e args).
  rewrite (run_print_failure I P H W). cbn [stdout exit_code].
  do 2 (split; [reflexivity|]). split.
  - intros E. apply fetch_and_extract_shape in H as (page & _ & X).
    assert (K : dict_get "ok" payload
                = dict_get "ok" (initial_payload args (extract_title page)))
      by (revert X; apply extend_keeps; discriminate).
    rewrite <- E in K. discriminate K.
  - split; [apply error_payload_json|].
    split; [apply dumps_printable | reflexivity].
Qed.

Lemma print_failure_reported_witness :
  import_Fetcher (sample_world surrogate_page None) = Ok (serve surrogate_page) /\
  parse_args (sample_world surrogate_page None) = Parsed (sample_args None) /\
  fetch_and_extract (serve surrogate_page) (sample_args None)
  = Ok [("ok", PyBool true); ("url", PyStr (lit "https://example.com"));
        ("title", PyNone);
        ("text_preview", PyStr (lit "caf" ++ [55296%N]))] /\
  print (sample_world surrogate_page None)
    (JsonLine false
       [("ok", PyBool true); ("url", PyStr (lit "https://example.com"));
        ("title", PyNone);
        ("text_preview", PyStr (lit "caf" ++ [55296%N]))])
  = Raise (Exception (lit "'utf-8' codec can't encode character: surrogates not allowed")) /\
  exists obj,
    stdout (script (sample_world surrogate_page None)) = [JsonLine true obj] /\
    obj = [("ok", PyBool false);
           ("error",
            PyStr (str (Exception (lit "'utf-8' codec can't encode character: surrogates not allowed"))));
           ("url", PyStr (url (sample_args None)))] /\
    obj <> [("ok", PyBool true); ("url", PyStr (lit "https://example.com"));
            ("title", PyNone);
            ("text_preview", PyStr (lit "caf" ++ [55296%N]))] /\
    json_object (dumps true obj) /\
    printable_ascii (dumps true obj) = true /\
    exit_code (script (sample_world surrogate_page None)) = 1%Z.
Proof.
  do 4 (split; [reflexivity|]).
  exact (print_failure_reported (sample_world surrogate_page None)
           (serve surrogate_page) (sample_args None) _ _
           eq_refl eq_refl eq_refl eq_refl).
Defined.
